(** * ak-diagnostic: a shallow embedding of the sampling engine

    The development follows [index.js]: the two formatters, the memory and
    CPU snapshots, the event-loop lag monitor and the [Diagnostics] session
    with its sampling tick, start/stop/reset life cycle and report.

    Representation of JavaScript numbers.  Every quantity that the program
    only ever holds as an integer (epoch milliseconds from [Date.now()],
    byte counts from [process.memoryUsage()], microsecond counters from
    [process.cpuUsage()], the alert counter, the time-over-target
    accumulator) is a [Z]; this is exact for magnitudes below 2^53.
    Quantities produced by a division (the CPU percentage, the averages of
    the statistics, the lag measurements) are IEEE-754 binary64 values,
    the kernel's primitive [float], so that division by zero yields
    [NaN] and the infinities exactly as in the source.

    Host calls ([Date.now()], [process.memoryUsage()], [process.cpuUsage()],
    [performance.now()]) are inputs: each operation takes a record with
    one field per host call it performs, in program order.  A host call
    that may throw is an [option].  [Math.log], whose result is left to
    the engine, enters through a [Host].  The alert callback is a function
    of its payload that returns or throws; it does not call back into the
    session.  Every operation returns the new session together with the
    payloads the callback was called with. *)

From Stdlib Require Import ZArith List String Ascii Bool Lia.
From Stdlib Require Import Floats DecimalString.
Import ListNotations.

Open Scope string_scope.
Open Scope Z_scope.

(** ** JavaScript primitives used by the source *)

Module JS.

(** Truthiness of a number: [0] is falsy ([NaN] cannot occur in a [Z]). *)
Definition truthy (z : Z) : bool := negb (z =? 0).

(** Truthiness of a property that may be [undefined]/[null] or a number. *)
Definition truthy_opt (o : option Z) : bool :=
  match o with
  | Some z => truthy z
  | None => false
  end.

(** [a || d] where [a] is a possibly missing number and [d] a number. *)
Definition or_num (a : option Z) (d : Z) : Z :=
  match a with
  | Some z => if truthy z then z else d
  | None => d
  end.

(** [a || null] for a possibly missing number. *)
Definition or_null (a : option Z) : option Z :=
  match a with
  | Some z => if truthy z then Some z else None
  | None => None
  end.

(** Truthiness of a string: only the empty string is falsy. *)
Definition truthy_string (s : string) : bool :=
  match s with
  | EmptyString => false
  | String _ _ => true
  end.

(** [arr[i]]: [undefined] (here [None]) outside the array. *)
Definition array_get {A : Type} (arr : list A) (i : Z) : option A :=
  if i <? 0 then None else nth_error arr (Z.to_nat i).

(** [arr.length]. *)
Definition length {A : Type} (arr : list A) : Z := Z.of_nat (List.length arr).

(** [arr.push(x)], as a new array value. *)
Definition push {A : Type} (arr : list A) (x : A) : list A := (arr ++ [x])%list.

(** [arr.slice(1)]. *)
Definition slice1 {A : Type} (arr : list A) : list A := List.tl arr.

(** An integer as a binary64 value (exact below 2^53). *)
Definition of_Z (z : Z) : float :=
  match z with
  | Z0 => PrimFloat.zero
  | Zpos _ => PrimFloat.of_uint63 (Uint63.of_Z z)
  | Zneg p => PrimFloat.opp (PrimFloat.of_uint63 (Uint63.of_Z (Zpos p)))
  end.

(** [Math.max(a, b)] on two numbers: [NaN] is contagious, [+0 > -0]. *)
Definition max2 (a b : float) : float :=
  if PrimFloat.is_nan a || PrimFloat.is_nan b then PrimFloat.nan
  else if PrimFloat.ltb a b then b
  else if PrimFloat.ltb b a then a
  else if PrimFloat.get_sign a then b else a.

(** [Math.min(a, b)] on two numbers: [NaN] is contagious, [-0 < +0]. *)
Definition min2 (a b : float) : float :=
  if PrimFloat.is_nan a || PrimFloat.is_nan b then PrimFloat.nan
  else if PrimFloat.ltb a b then a
  else if PrimFloat.ltb b a then b
  else if PrimFloat.get_sign a then a else b.

(** [Math.max(...values)]: [-Infinity] for no argument. *)
Definition Math_max (values : list float) : float :=
  fold_left max2 values PrimFloat.neg_infinity.

(** [Math.min(...values)]: [Infinity] for no argument. *)
Definition Math_min (values : list float) : float :=
  fold_left min2 values PrimFloat.infinity.

(** [values.reduce((a, b) => a + b, 0)]. *)
Definition sum (values : list float) : float :=
  fold_left PrimFloat.add values PrimFloat.zero.

(** [`${n}`] for an integer-valued number. *)
Definition show (z : Z) : string := NilZero.string_of_int (Z.to_int z).

(** [(num / den).toFixed(2)] for [0 <= num], [0 < den]: the nearest
    multiple of 1/100, the larger one on a tie, printed with two
    decimals. *)
Definition toFixed2 (num den : Z) : string :=
  let n := (200 * num + den) / (2 * den) in
  let frac := n mod 100 in
  show (n / 100) ++ "." ++ (if frac <? 10 then "0" else EmptyString) ++ show frac.

End JS.

(** ** Formatters *)

Definition sizes : list string := ["B"; "KB"; "MB"; "GB"; "TB"].

(** The host's logarithm.  [Math.log] is implementation-approximated,
    so the value of [Math.floor(Math.log(bytes) / Math.log(1024))] on a
    positive integer is the engine's, not the program's: just below a
    power of 1024 the rounded quotient may already reach the next
    integer.  A [Host] supplies that value as [log_index bytes],
    together with the three facts every engine gives: the logarithm of
    a count of at least one is not negative, a count below 1024 has
    index 0, and [Math.log(1024) / Math.log(1024)] is exactly 1. *)
Class Host : Type := {
  log_index : Z -> Z;
  log_index_nonneg : forall bytes, 0 < bytes -> 0 <= log_index bytes;
  log_index_small : forall bytes, 0 < bytes < 1024 -> log_index bytes = 0;
  log_index_k : log_index 1024 = 1
}.

(** [formatBytes(bytes)] on an integer byte count.  The index [i] is
    the host's; [Math.pow(k, i)] is a power of two, so the division is
    exact; a negative argument makes [Math.log] return [NaN], and an
    index past the table prints [undefined]. *)
Definition formatBytes {host : Host} (bytes : Z) : string :=
  if bytes =? 0 then "0 B"
  else if bytes <? 0 then "NaN undefined"
  else
    let k := 1024 in
    let i := log_index bytes in
    JS.toFixed2 bytes (Z.pow k i) ++ " " ++ nth (Z.to_nat i) sizes "undefined".

(** [formatDuration(ms)] on an integer number of milliseconds.
    [Math.floor(a / b)] is [Z.div] (floor division for a positive
    divisor) and [%] is the truncating [Z.rem]. *)
Definition formatDuration (ms : Z) : string :=
  let seconds := ms / 1000 in
  let minutes := seconds / 60 in
  let hours := minutes / 60 in
  let days := hours / 24 in
  if days >? 0 then
    JS.show days ++ "d " ++ JS.show (Z.rem hours 24) ++ "h "
      ++ JS.show (Z.rem minutes 60) ++ "m " ++ JS.show (Z.rem seconds 60) ++ "s"
  else if hours >? 0 then
    JS.show hours ++ "h " ++ JS.show (Z.rem minutes 60) ++ "m "
      ++ JS.show (Z.rem seconds 60) ++ "s"
  else if minutes >? 0 then
    JS.show minutes ++ "m " ++ JS.show (Z.rem seconds 60) ++ "s"
  else if seconds >? 0 then
    JS.show seconds ++ "s"
  else
    JS.show ms ++ "ms".

(** [safeExecute(fn, defaultValue)]: the result of [fn], or the default
    when [fn] throws ([None]). *)
Definition safeExecute {A : Type} (fn : option A) (defaultValue : A) : A :=
  match fn with
  | Some v => v
  | None => defaultValue
  end.

(** ** Resource samplers *)

(** The object returned by [process.memoryUsage()]; [arrayBuffers] is
    missing on old runtimes. *)
Record MemoryUsage : Type := mkMemoryUsage {
  mu_rss : Z;
  mu_heapTotal : Z;
  mu_heapUsed : Z;
  mu_external : Z;
  mu_arrayBuffers : option Z
}.

(** The object returned by [process.cpuUsage()], in microseconds. *)
Record CpuUsage : Type := mkCpuUsage {
  user : Z;
  system : Z
}.

Module MemorySnapshot.

Record t : Type := mk {
  timestamp : Z;
  rss : Z;
  heapTotal : Z;
  heapUsed : Z;
  external : Z;
  arrayBuffers : Z
}.

(** [new MemorySnapshot()]: [process.memoryUsage()] is called first and
    may throw, then [Date.now()]. *)
Definition new (memoryUsage : option MemoryUsage) (now : Z) : option t :=
  match memoryUsage with
  | None => None
  | Some memUsage =>
      Some {| timestamp := now;
              rss := mu_rss memUsage;
              heapTotal := mu_heapTotal memUsage;
              heapUsed := mu_heapUsed memUsage;
              external := mu_external memUsage;
              arrayBuffers := JS.or_num (mu_arrayBuffers memUsage) 0 |}
  end.

(** [get total()]. *)
Definition total (s : t) : Z := heapUsed s.

End MemorySnapshot.

Module CPUSnapshot.

Record t : Type := mk {
  timestamp : Z;
  usage : CpuUsage;
  percentage : float
}.

(** The percentage assigned inside [if (previousUsage)]. *)
Definition percentage_from (previousUsage : t) (now : Z) (cpu : CpuUsage) : float :=
  let timeDelta := now - timestamp previousUsage in
  let userDelta := user cpu - user (usage previousUsage) in
  let systemDelta := system cpu - system (usage previousUsage) in
  let totalDelta := userDelta + systemDelta in
  PrimFloat.mul
    (PrimFloat.div (JS.of_Z totalDelta) (JS.of_Z (timeDelta * 1000)))
    (JS.of_Z 100).

(** [new CPUSnapshot(previousUsage)]: [Date.now()], then
    [process.cpuUsage()], which may throw. *)
Definition new (previousUsage : option t) (now : Z) (cpuUsage : option CpuUsage)
  : option t :=
  match cpuUsage with
  | None => None
  | Some cpu =>
      Some {| timestamp := now;
              usage := cpu;
              percentage :=
                match previousUsage with
                | Some prev => percentage_from prev now cpu
                | None => PrimFloat.zero
                end |}
  end.

End CPUSnapshot.

(** ** Event-loop lag monitor *)

(** [{average, max, min}], the result of [getStats()]. *)
Record LagStats : Type := mkLagStats {
  lag_average : float;
  lag_max : float;
  lag_min : float
}.

Module EventLoopMonitor.

(** The armed [setInterval] handle: its period and the [lastCheck]
    variable captured by its callback. *)
Record Timer : Type := mkTimer {
  period : float;
  lastCheck : float
}.

Record t : Type := mk {
  samples : list float;
  checkInterval : option Timer
}.

Definition new : t := {| samples := []; checkInterval := None |}.

(** [start(interval)]; [now] is [performance.now()]. *)
Definition start (interval : float) (now : float) (m : t) : t :=
  match checkInterval m with
  | Some _ => m
  | None =>
      {| samples := samples m;
         checkInterval := Some {| period := interval; lastCheck := now |} |}
  end.

(** One firing of the interval callback; [now] is [performance.now()].
    The callback runs only while the handle is armed. *)
Definition tick (now : float) (m : t) : t :=
  match checkInterval m with
  | None => m
  | Some timer =>
      let actualDelay := PrimFloat.sub now (lastCheck timer) in
      let expectedDelay := period timer in
      let lag := JS.max2 PrimFloat.zero (PrimFloat.sub actualDelay expectedDelay) in
      {| samples := JS.push (samples m) lag;
         checkInterval := Some {| period := period timer; lastCheck := now |} |}
  end.

Definition stop (m : t) : t :=
  match checkInterval m with
  | Some _ => {| samples := samples m; checkInterval := None |}
  | None => m
  end.

Definition getStats (m : t) : LagStats :=
  if JS.length (samples m) =? 0 then
    {| lag_average := PrimFloat.zero; lag_max := PrimFloat.zero;
       lag_min := PrimFloat.zero |}
  else
    let sum := JS.sum (samples m) in
    {| lag_average := PrimFloat.div sum (JS.of_Z (JS.length (samples m)));
       lag_max := JS.Math_max (samples m);
       lag_min := JS.Math_min (samples m) |}.

End EventLoopMonitor.

(** ** The session *)

(** The payload passed to the alert callback. *)
Record AlertMemory : Type := mkAlertMemory {
  current : Z;
  alert_threshold : Z;
  formatted_current : string;
  formatted_threshold : string
}.

Record AlertInfo : Type := mkAlertInfo {
  alert_type : string;
  alert_timestamp : Z;
  alert_memory : AlertMemory;
  alert_name : string
}.

(** A caller-supplied callback either returns or throws. *)
Inductive Outcome : Type := Returned | Threw.

Definition Callback : Type := AlertInfo -> Outcome.

(** The environment snapshot, as a list of rendered properties; [{}] is
    the empty list. *)
Definition SystemInfo : Type := list (string * string).

(** The outcome of a constructor call: the object, or [throw new Error(message)]. *)
Inductive result (A : Type) : Type :=
| Ok (a : A)
| Throw (message : string).
Arguments Ok {A} a.
Arguments Throw {A} message.

(** The [options] object of the constructor; a missing property is [None]. *)
Module Options.

Record t : Type := mk {
  name : option string;
  interval : option Z;
  threshold : option Z;
  alert : option Callback;
  target : option Z;
  monitorEventLoop : option bool
}.

(** [{}], the default argument. *)
Definition empty : t :=
  {| name := None; interval := None; threshold := None; alert := None;
     target := None; monitorEventLoop := None |}.

(** [{...o, interval: v}], [{...o, threshold: v}], [{...o, target: v}]:
    the same options with one property replaced ([None] removes it). *)
Definition with_interval (v : option Z) (o : t) : t :=
  {| name := name o; interval := v; threshold := threshold o;
     alert := alert o; target := target o;
     monitorEventLoop := monitorEventLoop o |}.

Definition with_threshold (v : option Z) (o : t) : t :=
  {| name := name o; interval := interval o; threshold := v;
     alert := alert o; target := target o;
     monitorEventLoop := monitorEventLoop o |}.

Definition with_target (v : option Z) (o : t) : t :=
  {| name := name o; interval := interval o; threshold := threshold o;
     alert := alert o; target := v;
     monitorEventLoop := monitorEventLoop o |}.

End Options.

(** [{peak, average, low}]. *)
Record Stats : Type := mkStats {
  peak : float;
  average : float;
  low : float
}.

(** [{bytes, human}] for the configured threshold and target. *)
Record Metric : Type := mkMetric {
  bytes : Z;
  human : string
}.

(** The [clock] block of a report. *)
Record Clock : Type := mkClock {
  clock_startTime : option Z;
  clock_endTime : option Z;
  duration : Z;
  clock_human : string
}.

(** The [analysis] block of a report. *)
Record Analysis : Type := mkAnalysis {
  numSamples : Z;
  numOfAlertTriggers : Z;
  analysis_timeOverTarget : Z;
  timeOverTargetHuman : string;
  timeUnderTarget : Z;
  timeUnderTargetHuman : string;
  samplingInterval : Z;
  analysis_threshold : option Metric;
  analysis_target : option Metric
}.

(** The report: the raw numbers of every block, and the human-readable
    strings of the integer-valued ones (the renderings of the
    float-valued statistics, and the summary block that repeats them, are
    not modelled). *)
Record Report : Type := mkReport {
  report_name : string;
  memory : Stats;
  memory_heap : Stats;
  memory_rss : Stats;
  cpu : Stats;
  eventLoop_lag : LagStats;
  infos : SystemInfo;
  clock : Clock;
  analysis : Analysis
}.

(** [status()]. *)
Record Status : Type := mkStatus {
  status_running : bool;
  status_name : string;
  samplesCollected : Z;
  uptime : Z
}.

(** The host calls of one [_takeSample()], in program order. *)
Record TickEnv : Type := mkTickEnv {
  memoryUsage : option MemoryUsage;  (* process.memoryUsage(), may throw *)
  now_mem : Z;                       (* Date.now() in MemorySnapshot *)
  now_cpu : Z;                       (* Date.now() in CPUSnapshot *)
  cpuUsage : option CpuUsage;        (* process.cpuUsage(), may throw *)
  now_alert : Z;                     (* Date.now() in the alert payload *)
  now_target : Z                     (* Date.now() of the target tracking *)
}.

(** The host calls of [start()]. *)
Record StartEnv : Type := mkStartEnv {
  now_startTime : Z;                 (* this.startTime = Date.now() *)
  now_lastTargetCheck : Z;           (* this.lastTargetCheck = Date.now() *)
  first_sample : TickEnv;
  now_perf : float                   (* performance.now() in the monitor *)
}.

(** The host calls of [stop()]. *)
Record StopEnv : Type := mkStopEnv {
  now_endTime : Z;                   (* this.endTime = Date.now() *)
  final_sample : TickEnv
}.

(** The host calls of [report()]. *)
Record ReportEnv : Type := mkReportEnv {
  report_stop : StopEnv;
  now_end_fallback : Z;              (* this.endTime || Date.now() *)
  now_start_fallback : Z             (* this.startTime || Date.now() *)
}.

Module Diagnostics.

Record t : Type := mk {
  name : string;
  interval : Z;
  threshold : option Z;
  alert : Callback;
  target : option Z;
  monitorEventLoop : bool;
  running : bool;
  startTime : option Z;
  endTime : option Z;
  intervalHandle : option Z;
  memorySamples : list MemorySnapshot.t;
  cpuSamples : list CPUSnapshot.t;
  alertTriggerCount : Z;
  timeOverTarget : Z;
  lastTargetCheck : option Z;
  eventLoopMonitor : EventLoopMonitor.t;
  systemInfo : SystemInfo
}.

Definition set_running (v : bool) (s : t) : t :=
  {| name := name s;
     interval := interval s;
     threshold := threshold s;
     alert := alert s;
     target := target s;
     monitorEventLoop := monitorEventLoop s;
     running := v;
     startTime := startTime s;
     endTime := endTime s;
     intervalHandle := intervalHandle s;
     memorySamples := memorySamples s;
     cpuSamples := cpuSamples s;
     alertTriggerCount := alertTriggerCount s;
     timeOverTarget := timeOverTarget s;
     lastTargetCheck := lastTargetCheck s;
     eventLoopMonitor := eventLoopMonitor s;
     systemInfo := systemInfo s |}.

Definition set_startTime (v : option Z) (s : t) : t :=
  {| name := name s;
     interval := interval s;
     threshold := threshold s;
     alert := alert s;
     target := target s;
     monitorEventLoop := monitorEventLoop s;
     running := running s;
     startTime := v;
     endTime := endTime s;
     intervalHandle := intervalHandle s;
     memorySamples := memorySamples s;
     cpuSamples := cpuSamples s;
     alertTriggerCount := alertTriggerCount s;
     timeOverTarget := timeOverTarget s;
     lastTargetCheck := lastTargetCheck s;
     eventLoopMonitor := eventLoopMonitor s;
     systemInfo := systemInfo s |}.

Definition set_endTime (v : option Z) (s : t) : t :=
  {| name := name s;
     interval := interval s;
     threshold := threshold s;
     alert := alert s;
     target := target s;
     monitorEventLoop := monitorEventLoop s;
     running := running s;
     startTime := startTime s;
     endTime := v;
     intervalHandle := intervalHandle s;
     memorySamples := memorySamples s;
     cpuSamples := cpuSamples s;
     alertTriggerCount := alertTriggerCount s;
     timeOverTarget := timeOverTarget s;
     lastTargetCheck := lastTargetCheck s;
     eventLoopMonitor := eventLoopMonitor s;
     systemInfo := systemInfo s |}.

Definition set_intervalHandle (v : option Z) (s : t) : t :=
  {| name := name s;
     interval := interval s;
     threshold := threshold s;
     alert := alert s;
     target := target s;
     monitorEventLoop := monitorEventLoop s;
     running := running s;
     startTime := startTime s;
     endTime := endTime s;
     intervalHandle := v;
     memorySamples := memorySamples s;
     cpuSamples := cpuSamples s;
     alertTriggerCount := alertTriggerCount s;
     timeOverTarget := timeOverTarget s;
     lastTargetCheck := lastTargetCheck s;
     eventLoopMonitor := eventLoopMonitor s;
     systemInfo := systemInfo s |}.

Definition set_memorySamples (v : list MemorySnapshot.t) (s : t) : t :=
  {| name := name s;
     interval := interval s;
     threshold := threshold s;
     alert := alert s;
     target := target s;
     monitorEventLoop := monitorEventLoop s;
     running := running s;
     startTime := startTime s;
     endTime := endTime s;
     intervalHandle := intervalHandle s;
     memorySamples := v;
     cpuSamples := cpuSamples s;
     alertTriggerCount := alertTriggerCount s;
     timeOverTarget := timeOverTarget s;
     lastTargetCheck := lastTargetCheck s;
     eventLoopMonitor := eventLoopMonitor s;
     systemInfo := systemInfo s |}.

Definition set_cpuSamples (v : list CPUSnapshot.t) (s : t) : t :=
  {| name := name s;
     interval := interval s;
     threshold := threshold s;
     alert := alert s;
     target := target s;
     monitorEventLoop := monitorEventLoop s;
     running := running s;
     startTime := startTime s;
     endTime := endTime s;
     intervalHandle := intervalHandle s;
     memorySamples := memorySamples s;
     cpuSamples := v;
     alertTriggerCount := alertTriggerCount s;
     timeOverTarget := timeOverTarget s;
     lastTargetCheck := lastTargetCheck s;
     eventLoopMonitor := eventLoopMonitor s;
     systemInfo := systemInfo s |}.

Definition set_alertTriggerCount (v : Z) (s : t) : t :=
  {| name := name s;
     interval := interval s;
     threshold := threshold s;
     alert := alert s;
     target := target s;
     monitorEventLoop := monitorEventLoop s;
     running := running s;
     startTime := startTime s;
     endTime := endTime s;
     intervalHandle := intervalHandle s;
     memorySamples := memorySamples s;
     cpuSamples := cpuSamples s;
     alertTriggerCount := v;
     timeOverTarget := timeOverTarget s;
     lastTargetCheck := lastTargetCheck s;
     eventLoopMonitor := eventLoopMonitor s;
     systemInfo := systemInfo s |}.

Definition set_timeOverTarget (v : Z) (s : t) : t :=
  {| name := name s;
     interval := interval s;
     threshold := threshold s;
     alert := alert s;
     target := target s;
     monitorEventLoop := monitorEventLoop s;
     running := running s;
     startTime := startTime s;
     endTime := endTime s;
     intervalHandle := intervalHandle s;
     memorySamples := memorySamples s;
     cpuSamples := cpuSamples s;
     alertTriggerCount := alertTriggerCount s;
     timeOverTarget := v;
     lastTargetCheck := lastTargetCheck s;
     eventLoopMonitor := eventLoopMonitor s;
     systemInfo := systemInfo s |}.

Definition set_lastTargetCheck (v : option Z) (s : t) : t :=
  {| name := name s;
     interval := interval s;
     threshold := threshold s;
     alert := alert s;
     target := target s;
     monitorEventLoop := monitorEventLoop s;
     running := running s;
     startTime := startTime s;
     endTime := endTime s;
     intervalHandle := intervalHandle s;
     memorySamples := memorySamples s;
     cpuSamples := cpuSamples s;
     alertTriggerCount := alertTriggerCount s;
     timeOverTarget := timeOverTarget s;
     lastTargetCheck := v;
     eventLoopMonitor := eventLoopMonitor s;
     systemInfo := systemInfo s |}.

Definition set_eventLoopMonitor (v : EventLoopMonitor.t) (s : t) : t :=
  {| name := name s;
     interval := interval s;
     threshold := threshold s;
     alert := alert s;
     target := target s;
     monitorEventLoop := monitorEventLoop s;
     running := running s;
     startTime := startTime s;
     endTime := endTime s;
     intervalHandle := intervalHandle s;
     memorySamples := memorySamples s;
     cpuSamples := cpuSamples s;
     alertTriggerCount := alertTriggerCount s;
     timeOverTarget := timeOverTarget s;
     lastTargetCheck := lastTargetCheck s;
     eventLoopMonitor := v;
     systemInfo := systemInfo s |}.

(** [_collectSystemInfo()]: the collection runs under [safeExecute]. *)
Definition _collectSystemInfo (collected : option SystemInfo) : SystemInfo :=
  safeExecute collected [].

(** The message of the error thrown for a missing name:
    [Diagnostics requires a "name" option]. *)
Definition name_required : string :=
  let quote := String (ascii_of_nat 34) EmptyString in
  "Diagnostics requires a " ++ quote ++ "name" ++ quote ++ " option".

(** [new Diagnostics(options)]. *)
Definition constructor (options : Options.t) (collected : option SystemInfo)
  : result t :=
  match Options.name options with
  | None => Throw name_required
  | Some n =>
      if negb (JS.truthy_string n) then Throw name_required
      else
      Ok {| name := n;
            interval := JS.or_num (Options.interval options) 5000;
            threshold := JS.or_null (Options.threshold options);
            alert := match Options.alert options with
                     | Some f => f
                     | None => fun _ => Returned
                     end;
            target := JS.or_null (Options.target options);
            monitorEventLoop := match Options.monitorEventLoop options with
                                | Some false => false
                                | _ => true
                                end;
            running := false;
            startTime := None;
            endTime := None;
            intervalHandle := None;
            memorySamples := [];
            cpuSamples := [];
            alertTriggerCount := 0;
            timeOverTarget := 0;
            lastTargetCheck := None;
            eventLoopMonitor := EventLoopMonitor.new;
            systemInfo := _collectSystemInfo collected |}
  end.

(** The object handed to the alert callback. *)
Definition alert_payload {host : Host} (s : t) (memSample : MemorySnapshot.t)
  (th now : Z)
  : AlertInfo :=
  {| alert_type := "threshold_exceeded";
     alert_timestamp := now;
     alert_memory :=
       {| current := MemorySnapshot.total memSample;
          alert_threshold := th;
          formatted_current := formatBytes (MemorySnapshot.total memSample);
          formatted_threshold := formatBytes th |};
     alert_name := name s |}.

(** The call [safeExecute(() => { this.alert(payload) })]: whatever the
    callback does, the tick goes on. *)
Definition invoke_alert (s : t) (payload : AlertInfo) : unit :=
  safeExecute
    (match alert s payload with
     | Returned => Some tt
     | Threw => None
     end) tt.

(** The threshold check of a tick; the second component lists the
    payloads the alert callback was called with. *)
Definition check_threshold {host : Host} (env : TickEnv)
  (memSample : MemorySnapshot.t) (s : t)
  : t * list AlertInfo :=
  match threshold s with
  | Some th =>
      if JS.truthy th && (MemorySnapshot.total memSample >? th) then
        let s := set_alertTriggerCount (alertTriggerCount s + 1) s in
        let payload := alert_payload s memSample th (now_alert env) in
        let _ := invoke_alert s payload in
        (s, [payload])
      else (s, [])
  | None => (s, [])
  end.

(** The target tracking of a tick. *)
Definition track_target (env : TickEnv) (memSample : MemorySnapshot.t) (s : t) : t :=
  match target s with
  | Some tg =>
      if JS.truthy tg then
        let now := now_target env in
        let s :=
          match lastTargetCheck s with
          | Some last =>
              if JS.truthy last then
                let timeDelta := now - last in
                if MemorySnapshot.total memSample >? tg then
                  set_timeOverTarget (timeOverTarget s + timeDelta) s
                else s
              else s
          | None => s
          end in
        set_lastTargetCheck (Some now) s
      else s
  | None => s
  end.

(** [_takeSample()].  The body runs inside [try { ... } catch { }]: a
    host call that throws ends the tick and keeps the assignments made
    before it. *)
Definition _takeSample {host : Host} (env : TickEnv) (s : t)
  : t * list AlertInfo :=
  match MemorySnapshot.new (memoryUsage env) (now_mem env) with
  | None => (s, [])
  | Some memSample =>
      let s := set_memorySamples (JS.push (memorySamples s) memSample) s in
      let lastCpuSample :=
        JS.array_get (cpuSamples s) (JS.length (cpuSamples s) - 1) in
      match CPUSnapshot.new lastCpuSample (now_cpu env) (cpuUsage env) with
      | None => (s, [])
      | Some cpuSample =>
          let s := set_cpuSamples (JS.push (cpuSamples s) cpuSample) s in
          let '(s, calls) := check_threshold env memSample s in
          (track_target env memSample s, calls)
      end
  end.

(** [start()]. *)
Definition start {host : Host} (env : StartEnv) (s : t) : t * list AlertInfo :=
  if running s then (s, [])
  else
    let s := set_running true s in
    let s := set_startTime (Some (now_startTime env)) s in
    let s := set_memorySamples [] s in
    let s := set_cpuSamples [] s in
    let s := set_alertTriggerCount 0 s in
    let s := set_timeOverTarget 0 s in
    let s := set_lastTargetCheck (Some (now_lastTargetCheck env)) s in
    let '(s, calls) := _takeSample (first_sample env) s in
    let s :=
      if monitorEventLoop s then
        set_eventLoopMonitor
          (EventLoopMonitor.start (JS.of_Z 100) (now_perf env) (eventLoopMonitor s)) s
      else s in
    let s := set_intervalHandle (Some (interval s)) s in
    (s, calls).

(** [stop()]. *)
Definition stop {host : Host} (env : StopEnv) (s : t) : t * list AlertInfo :=
  if negb (running s) then (s, [])
  else
    let s := set_running false s in
    let s := set_endTime (Some (now_endTime env)) s in
    let '(s, calls) := _takeSample (final_sample env) s in
    let s :=
      match intervalHandle s with
      | Some _ => set_intervalHandle None s
      | None => s
      end in
    let s := set_eventLoopMonitor (EventLoopMonitor.stop (eventLoopMonitor s)) s in
    (s, calls).

(** [_calculateStats(samples, accessor)]. *)
Definition _calculateStats {A : Type} (samples : list A) (accessor : A -> float)
  : Stats :=
  if JS.length samples =? 0 then
    {| peak := PrimFloat.zero; average := PrimFloat.zero; low := PrimFloat.zero |}
  else
    let values := map accessor samples in
    let sum := JS.sum values in
    {| peak := JS.Math_max values;
       average := PrimFloat.div sum (JS.of_Z (JS.length values));
       low := JS.Math_min values |}.

(** [report()]. *)
Definition report {host : Host} (env : ReportEnv) (s : t)
  : t * list AlertInfo * Report :=
  let '(s, calls) := if running s then stop (report_stop env) s else (s, []) in
  let duration :=
    (match endTime s with
     | Some e => if JS.truthy e then e else now_end_fallback env
     | None => now_end_fallback env
     end)
    - (match startTime s with
       | Some b => if JS.truthy b then b else now_start_fallback env
       | None => now_start_fallback env
       end) in
  let timeUnderTarget := Z.max 0 (duration - timeOverTarget s) in
  let memoryStats :=
    _calculateStats (memorySamples s) (fun m => JS.of_Z (MemorySnapshot.total m)) in
  let heapStats :=
    _calculateStats (memorySamples s) (fun m => JS.of_Z (MemorySnapshot.heapUsed m)) in
  let rssStats :=
    _calculateStats (memorySamples s) (fun m => JS.of_Z (MemorySnapshot.rss m)) in
  let cpuStats :=
    _calculateStats (JS.slice1 (cpuSamples s)) CPUSnapshot.percentage in
  let eventLoopStats := EventLoopMonitor.getStats (eventLoopMonitor s) in
  (s, calls,
   {| report_name := name s;
      memory := memoryStats;
      memory_heap := heapStats;
      memory_rss := rssStats;
      cpu := cpuStats;
      eventLoop_lag := eventLoopStats;
      infos := systemInfo s;
      clock :=
        {| clock_startTime := startTime s;
           clock_endTime := endTime s;
           duration := duration;
           clock_human := formatDuration duration |};
      analysis :=
        {| numSamples := JS.length (memorySamples s);
           numOfAlertTriggers := alertTriggerCount s;
           analysis_timeOverTarget := timeOverTarget s;
           timeOverTargetHuman := formatDuration (timeOverTarget s);
           timeUnderTarget := timeUnderTarget;
           timeUnderTargetHuman := formatDuration timeUnderTarget;
           samplingInterval := interval s;
           analysis_threshold :=
             match threshold s with
             | Some th =>
                 if JS.truthy th then
                   Some {| bytes := th; human := formatBytes th |}
                 else None
             | None => None
             end;
           analysis_target :=
             match target s with
             | Some tg =>
                 if JS.truthy tg then
                   Some {| bytes := tg; human := formatBytes tg |}
                 else None
             | None => None
             end |} |}).

(** [reset()]. *)
Definition reset {host : Host} (env : StopEnv) (s : t) : t * list AlertInfo :=
  let '(s, calls) := stop env s in
  let s := set_memorySamples [] s in
  let s := set_cpuSamples [] s in
  let s := set_alertTriggerCount 0 s in
  let s := set_timeOverTarget 0 s in
  let s := set_lastTargetCheck None s in
  let s := set_startTime None s in
  let s := set_endTime None s in
  (s, calls).

(** [status()]; [now] is [Date.now()], and [null] counts as [0] in the
    subtraction. *)
Definition status (now : Z) (s : t) : Status :=
  {| status_running := running s;
     status_name := name s;
     samplesCollected := JS.length (memorySamples s);
     uptime := if running s
               then now - match startTime s with Some b => b | None => 0 end
               else 0 |}.

(** *** The session as a transition system

    What can happen to a session object: a call of one of its public
    methods, or the firing of one of its two timers.  A timer callback
    runs only while its handle is armed. *)
Inductive Op : Type :=
| OpStart (env : StartEnv)
| OpStop (env : StopEnv)
| OpReport (env : ReportEnv)
| OpReset (env : StopEnv)
| OpTick (env : TickEnv)          (* the sampling interval fires *)
| OpLagTick (now : float).        (* the monitor's interval fires *)

Definition step {host : Host} (s : t) (op : Op) : t * list AlertInfo :=
  match op with
  | OpStart env => start env s
  | OpStop env => stop env s
  | OpReport env => fst (report env s)
  | OpReset env => reset env s
  | OpTick env =>
      match intervalHandle s with
      | Some _ => _takeSample env s
      | None => (s, [])
      end
  | OpLagTick now =>
      (set_eventLoopMonitor (EventLoopMonitor.tick now (eventLoopMonitor s)) s, [])
  end.

(** A sequence of operations, with every alert the callback received. *)
Fixpoint run {host : Host} (s : t) (ops : list Op) : t * list AlertInfo :=
  match ops with
  | [] => (s, [])
  | op :: ops' =>
      let '(s', calls) := step s op in
      let '(s'', calls') := run s' ops' in
      (s'', (calls ++ calls')%list)
  end.

(** One measurement window: [start()], the interval ticks, [stop()]. *)
Definition cycle (b : StartEnv) (ticks : list TickEnv) (e : StopEnv) : list Op :=
  (OpStart b :: map OpTick ticks ++ [OpStop e])%list.

End Diagnostics.

Import Diagnostics.

(** * Statements

    ** Vocabulary *)

(** The six configuration fields and the system information agree. *)
Definition same_config (s s' : t) : Prop :=
  name s' = name s
  /\ interval s' = interval s
  /\ threshold s' = threshold s
  /\ alert s' = alert s
  /\ target s' = target s
  /\ monitorEventLoop s' = monitorEventLoop s
  /\ systemInfo s' = systemInfo s.

(** The first element of the CPU sequence, if any, has percentage [0]. *)
Definition first_cpu_zero (s : t) : Prop :=
  match cpuSamples s with
  | c :: _ => CPUSnapshot.percentage c = PrimFloat.zero
  | [] => True
  end.

(** Without a threshold no tick calls the alert callback or counts an
    alert. *)
Definition alerts_off (s : t) : Prop :=
  threshold s = None /\ alertTriggerCount s = 0.

(** Without a target no time is accumulated. *)
Definition target_off (s : t) : Prop :=
  target s = None /\ timeOverTarget s = 0.

(** Whether the two captures of a tick succeed. *)
Definition mem_ok (env : TickEnv) : bool :=
  match memoryUsage env with Some _ => true | None => false end.

Definition cpu_ok (env : TickEnv) : bool :=
  match cpuUsage env with Some _ => true | None => false end.

(** Both captures succeed. *)
Definition captures_ok (env : TickEnv) : bool := mem_ok env && cpu_ok env.

(** The CPU capture does not fail after a successful memory capture. *)
Definition paired (env : TickEnv) : bool := cpu_ok env || negb (mem_ok env).

(** The sampling environment an operation carries, if any. *)
Definition op_sample (op : Op) : option TickEnv :=
  match op with
  | OpStart b => Some (first_sample b)
  | OpStop e => Some (final_sample e)
  | OpReport r => Some (final_sample (report_stop r))
  | OpReset e => Some (final_sample e)
  | OpTick env => Some env
  | OpLagTick _ => None
  end.

Definition op_paired (op : Op) : bool :=
  match op_sample op with
  | Some env => paired env
  | None => true
  end.

(** The memory samples a tick appends: one, or none when
    [process.memoryUsage()] throws. *)
Definition mem_appended (env : TickEnv) : list MemorySnapshot.t :=
  match MemorySnapshot.new (memoryUsage env) (now_mem env) with
  | Some m => [m]
  | None => []
  end.

Definition same_lengths (s : t) : Prop :=
  JS.length (memorySamples s) = JS.length (cpuSamples s).

(** [chain t readings]: the readings never go back, starting from [t]. *)
Fixpoint chain (t : Z) (readings : list Z) : bool :=
  match readings with
  | [] => true
  | x :: rest => (t <=? x) && chain x rest
  end.


(** The [Date.now()] readings of a tick, in program order. *)
Definition tick_clock (env : TickEnv) : list Z :=
  [now_mem env; now_cpu env; now_alert env; now_target env].

Definition stop_clock (e : StopEnv) : list Z :=
  now_endTime e :: tick_clock (final_sample e).

(** The [Date.now()] readings an operation may consume, in program order. *)
Definition op_clock (op : Op) : list Z :=
  match op with
  | OpStart b =>
      now_startTime b :: now_lastTargetCheck b :: tick_clock (first_sample b)
  | OpStop e => stop_clock e
  | OpReport r =>
      (stop_clock (report_stop r) ++ [now_end_fallback r; now_start_fallback r])%list
  | OpReset e => stop_clock e
  | OpTick env => tick_clock env
  | OpLagTick _ => []
  end.

Definition clock_of (ops : list Op) : list Z := flat_map op_clock ops.

Definition is_reset (op : Op) : bool :=
  match op with
  | OpReset _ => true
  | _ => false
  end.


(** Between its checkpoint [c] at [start()] and the reading [now], a
    running session has accumulated no more than the time elapsed
    between [c] and its latest checkpoint. *)
Definition tracked (c : Z) (s : t) (now : Z) : Prop :=
  exists last,
    lastTargetCheck s = Some last
    /\ c <= last <= now
    /\ 0 <= timeOverTarget s <= last - c.

(** An armed timer handle. *)
Definition armed {A : Type} (handle : option A) : bool :=
  match handle with
  | Some _ => true
  | None => false
  end.

(** Both timers are armed exactly while they should be: the sampling
    timer while the session runs, the monitor's timer while it runs with
    event-loop monitoring enabled. *)
Definition timers_match (s : t) : Prop :=
  armed (intervalHandle s) = running s
  /\ armed (EventLoopMonitor.checkInterval (eventLoopMonitor s))
     = running s && monitorEventLoop s.

(** The all-zero statistics of an empty sequence. *)
Definition zero_stats : Stats :=
  {| peak := PrimFloat.zero; average := PrimFloat.zero; low := PrimFloat.zero |}.

Definition zero_lag : LagStats :=
  {| lag_average := PrimFloat.zero; lag_max := PrimFloat.zero;
     lag_min := PrimFloat.zero |}.

(** A well-formed alert payload of session [s]: the fixed type tag, the
    session's name, its configured threshold, and a current value above
    it, each byte count with its rendering. *)
Definition payload_ok {host : Host} (s : t) (a : AlertInfo) : Prop :=
  alert_type a = "threshold_exceeded"
  /\ alert_name a = name s
  /\ threshold s = Some (alert_threshold (alert_memory a))
  /\ alert_threshold (alert_memory a) < current (alert_memory a)
  /\ formatted_current (alert_memory a) = formatBytes (current (alert_memory a))
  /\ formatted_threshold (alert_memory a)
     = formatBytes (alert_threshold (alert_memory a)).

(** A recorded lag is not below zero. *)
Definition lag_not_negative (lag : float) : Prop :=
  PrimFloat.ltb lag PrimFloat.zero = false.

(** The tick captures both samples and its heap is above [tg]. *)
Definition over_target (tg : Z) (env : TickEnv) : bool :=
  match memoryUsage env with
  | Some mu => cpu_ok env && (mu_heapUsed mu >? tg)
  | None => false
  end.

(** The tick's heap, if captured, is not above [tg]. *)
Definition not_over_target (tg : Z) (env : TickEnv) : bool :=
  match memoryUsage env with
  | Some mu => mu_heapUsed mu <=? tg
  | None => true
  end.

(** The samples of a window, in order. *)
Definition window_samples (b : StartEnv) (ticks : list TickEnv) (e : StopEnv)
  : list TickEnv :=
  (first_sample b :: ticks ++ [final_sample e])%list.

(** ** Concrete sessions

    A small session on which the theorems are run and the corner cases
    exhibited.  Times are epoch milliseconds; the heap holds 8 MB. *)

Definition epoch : Z := 1700000000000.

(** An engine whose logarithm is exact: its index is the integer
    logarithm in base 1024, [log2 bytes / 10]. *)
Definition exact_log_index (bytes : Z) : Z := Z.log2 bytes / Z.log2 1024.

Definition reference_host : Host.
Proof.
  refine {| log_index := exact_log_index |}.
  - intros bytes _. unfold exact_log_index.
    apply Z.div_pos; [apply Z.log2_nonneg | reflexivity].
  - intros bytes H. unfold exact_log_index. change (Z.log2 1024) with 10.
    apply Z.div_small. split; [apply Z.log2_nonneg|].
    apply Z.log2_lt_pow2; [lia|]. change (2 ^ 10) with 1024. lia.
  - reflexivity.
Defined.

(** An engine whose rounded quotient already reaches 5 at [2^50 - 1]:
    in binary64 the logarithm of [2^50 - 1] rounds to that of [2^50]. *)
Definition rounding_host : Host.
Proof.
  refine {| log_index := fun bytes =>
              if bytes =? 2 ^ 50 - 1 then 5 else exact_log_index bytes |}.
  - intros bytes _. destruct (bytes =? 2 ^ 50 - 1); [lia|].
    unfold exact_log_index.
    apply Z.div_pos; [apply Z.log2_nonneg | reflexivity].
  - intros bytes H. destruct (Z.eqb_spec bytes (2 ^ 50 - 1)) as [E|_]; [lia|].
    unfold exact_log_index. change (Z.log2 1024) with 10.
    apply Z.div_small. split; [apply Z.log2_nonneg|].
    apply Z.log2_lt_pow2; [lia|]. change (2 ^ 10) with 1024. lia.
  - reflexivity.
Defined.

(** A tick at [now] in which every host call succeeds and the clock does
    not advance during the tick. *)
Definition reading (now cpuTime : Z) : TickEnv :=
  {| memoryUsage :=
       Some {| mu_rss := 60000000; mu_heapTotal := 20000000;
               mu_heapUsed := 8000000; mu_external := 1500000;
               mu_arrayBuffers := Some 20000 |};
     now_mem := now;
     now_cpu := now;
     cpuUsage := Some {| user := cpuTime; system := 0 |};
     now_alert := now;
     now_target := now |}.

(** The same tick with [process.cpuUsage()] throwing. *)
Definition reading_cpu_fails (now : Z) : TickEnv :=
  {| memoryUsage := memoryUsage (reading now 0);
     now_mem := now; now_cpu := now; cpuUsage := None;
     now_alert := now; now_target := now |}.

(** A tick whose target check reads the clock [late] milliseconds after
    the tick began (a slow alert callback, a collector pause, a
    suspended process). *)
Definition reading_late (now late cpuTime : Z) : TickEnv :=
  {| memoryUsage := memoryUsage (reading now cpuTime);
     now_mem := now; now_cpu := now;
     cpuUsage := cpuUsage (reading now cpuTime);
     now_alert := now; now_target := now + late |}.

Definition window_start (now cpuTime : Z) : StartEnv :=
  {| now_startTime := now; now_lastTargetCheck := now;
     first_sample := reading now cpuTime; now_perf := PrimFloat.zero |}.

Definition window_stop (now cpuTime : Z) : StopEnv :=
  {| now_endTime := now; final_sample := reading now cpuTime |}.

(** Three interval ticks, 50 ms apart, after [now]. *)
Definition three_ticks (now : Z) : list TickEnv :=
  [reading (now + 50) 1000; reading (now + 100) 2000; reading (now + 150) 3000].

Definition report_env (now : Z) : ReportEnv :=
  {| report_stop := window_stop now 0;
     now_end_fallback := now; now_start_fallback := now |}.

(** [{ name: 'app', interval: 50, threshold, target }]. *)
Definition app_options (threshold target : option Z) : Options.t :=
  {| Options.name := Some "app"; Options.interval := Some 50;
     Options.threshold := threshold; Options.alert := None;
     Options.target := target; Options.monitorEventLoop := None |}.

(** The session these options build. *)
Definition app_session (threshold target : option Z) : t :=
  {| name := "app"; interval := 50;
     threshold := JS.or_null threshold;
     alert := fun _ => Returned;
     target := JS.or_null target;
     monitorEventLoop := true;
     running := false; startTime := None; endTime := None;
     intervalHandle := None; memorySamples := []; cpuSamples := [];
     alertTriggerCount := 0; timeOverTarget := 0; lastTargetCheck := None;
     eventLoopMonitor := EventLoopMonitor.new;
     systemInfo := [] |}.


(** [{ name: 'quiet', monitorEventLoop: false }] and the session it
    builds. *)
Definition quiet_options : Options.t :=
  {| Options.name := Some "quiet"; Options.interval := None;
     Options.threshold := None; Options.alert := None;
     Options.target := None; Options.monitorEventLoop := Some false |}.

Definition quiet_session : t :=
  {| name := "quiet"; interval := 5000; threshold := None;
     alert := fun _ => Returned; target := None;
     monitorEventLoop := false;
     running := false; startTime := None; endTime := None;
     intervalHandle := None; memorySamples := []; cpuSamples := [];
     alertTriggerCount := 0; timeOverTarget := 0; lastTargetCheck := None;
     eventLoopMonitor := EventLoopMonitor.new;
     systemInfo := [] |}.

(** The window used throughout: started at [epoch], three interval
    ticks, stopped 200 ms later. *)
Definition app_window : list Op :=
  cycle (window_start epoch 0) (three_ticks epoch) (window_stop (epoch + 200) 4000).

(** The first CPU sample of that window. *)
Definition first_cpu_sample : CPUSnapshot.t :=
  {| CPUSnapshot.timestamp := epoch;
     CPUSnapshot.usage := {| user := 0; system := 0 |};
     CPUSnapshot.percentage := PrimFloat.zero |}.

(** A CPU sample taken in the millisecond of its predecessor. *)
Definition nan_cpu_sample : CPUSnapshot.t :=
  {| CPUSnapshot.timestamp := epoch;
     CPUSnapshot.usage := {| user := 0; system := 0 |};
     CPUSnapshot.percentage := PrimFloat.nan |}.

(** * Verification

    ** Proof automation *)

(** Case analysis on the innermost scrutinee of the goal. *)
Ltac break_match :=
  match goal with
  | |- context [match ?x with _ => _ end] =>
      lazymatch x with
      | context [match _ with _ => _ end] => fail
      | _ => destruct x eqn:?
      end
  | |- context [if ?x then _ else _] =>
      lazymatch x with
      | context [if _ then _ else _] => fail
      | _ => destruct x eqn:?
      end
  end.

(** Open a tick down to its leaves. *)
Ltac open_tick :=
  unfold _takeSample, check_threshold, track_target;
  repeat (break_match; cbn [fst snd]).

(** Turn a [chain] hypothesis over an explicit list into inequalities. *)
Ltac chain_facts H :=
  repeat (apply andb_prop in H;
          let Hx := fresh "Hle" in destruct H as [Hx H];
          apply Z.leb_le in Hx);
  clear H.

Lemma string_append_assoc (a b c : string) :
  (a ++ b) ++ c = a ++ (b ++ c).
Proof.
  induction a as [|ch a IH]; cbn; [reflexivity | rewrite IH; reflexivity].
Qed.

Section Properties.

Context {host : Host}.

(** ** Formatters *)

(** For a positive count [formatBytes] prints the count divided by the
    power of 1024 of the host's index, with two decimals, and the unit
    of that index. *)
Lemma formatBytes_positive (bytes : Z) :
  0 < bytes ->
  let i := log_index bytes in
  formatBytes bytes
  = JS.toFixed2 bytes (1024 ^ i) ++ " " ++ nth (Z.to_nat i) sizes "undefined".
Proof.
  intros H. unfold formatBytes.
  destruct (Z.eqb_spec bytes 0); [lia|].
  destruct (Z.ltb_spec bytes 0); [lia|]. reflexivity.
Qed.


(** Below one second [formatDuration] prints the raw millisecond count. *)
Lemma formatDuration_subsecond (ms : Z) :
  0 <= ms < 1000 -> formatDuration ms = JS.show ms ++ "ms".
Proof.
  intros H. unfold formatDuration.
  rewrite (Z.div_small ms 1000) by lia. reflexivity.
Qed.



(** ** Construction *)

(** C6. Construction fails, with the configuration error, exactly when
    the name is missing (absent or the empty string, the two falsy
    cases); with a name it succeeds, whatever the other options and
    whether or not the collection of the system information fails. *)
Theorem constructor_requires_only_name :
  forall (options : Options.t) (collected : option SystemInfo),
    match Options.name options with
    | Some (String c n) =>
        exists d, constructor options collected = Ok d
                  /\ name d = String c n
                  /\ running d = false
                  /\ memorySamples d = [] /\ cpuSamples d = []
    | _ => constructor options collected = Throw name_required
    end.
Proof.
  intros options collected. unfold constructor.
  destruct (Options.name options) as [[|c n]|]; cbn.
  - reflexivity.
  - eexists. repeat split.
  - reflexivity.
Qed.

(** The text of the configuration error. *)
Example name_required_text :
  constructor Options.empty None = Throw name_required
  /\ String.length name_required = 36%nat
  /\ String.get 23 name_required = Some (ascii_of_nat 34).
Proof. repeat split. Qed.

(** ** Configuration is never written after construction *)

Lemma same_config_refl (s : t) : same_config s s.
Proof. repeat split. Qed.

Lemma same_config_trans (s1 s2 s3 : t) :
  same_config s1 s2 -> same_config s2 s3 -> same_config s1 s3.
Proof.
  unfold same_config. intros (?&?&?&?&?&?&?) (?&?&?&?&?&?&?).
  repeat split; congruence.
Qed.

Lemma takeSample_same_config (env : TickEnv) (s : t) :
  same_config s (fst (_takeSample env s)).
Proof. open_tick; repeat split. Qed.

Lemma start_same_config (env : StartEnv) (s : t) :
  same_config s (fst (start env s)).
Proof.
  unfold start. destruct (running s); [apply same_config_refl|].
  match goal with
  | |- context [_takeSample ?e ?s0] =>
      pose proof (takeSample_same_config e s0) as H;
      destruct (_takeSample e s0) as [s1 calls]
  end.
  cbn [fst] in *. destruct H as (?&?&?&?&?&Hm&?).
  rewrite Hm. cbn [monitorEventLoop set_lastTargetCheck set_timeOverTarget
    set_alertTriggerCount set_cpuSamples set_memorySamples set_startTime
    set_running].
  destruct (monitorEventLoop s); repeat split; cbn; assumption.
Qed.

Lemma stop_same_config (env : StopEnv) (s : t) :
  same_config s (fst (stop env s)).
Proof.
  unfold stop. destruct (running s); cbn [negb]; [|apply same_config_refl].
  match goal with
  | |- context [_takeSample ?e ?s0] =>
      pose proof (takeSample_same_config e s0) as H;
      destruct (_takeSample e s0) as [s1 calls]
  end.
  cbn [fst] in *. destruct H as (?&?&?&?&?&?&?).
  destruct (intervalHandle s1); repeat split; cbn; assumption.
Qed.

Lemma reset_same_config (env : StopEnv) (s : t) :
  same_config s (fst (reset env s)).
Proof.
  unfold reset. pose proof (stop_same_config env s) as H.
  destruct (stop env s) as [s1 calls]. cbn [fst] in *.
  destruct H as (?&?&?&?&?&?&?). repeat split; cbn; assumption.
Qed.

Lemma report_state (env : ReportEnv) (s : t) :
  fst (report env s) = if running s then stop (report_stop env) s else (s, []).
Proof.
  unfold report. destruct (running s).
  - destruct (stop (report_stop env) s); reflexivity.
  - reflexivity.
Qed.

Lemma step_same_config (s : t) (op : Op) :
  same_config s (fst (step s op)).
Proof.
  destruct op; cbn [step].
  - apply start_same_config.
  - apply stop_same_config.
  - rewrite report_state. destruct (running s);
      [apply stop_same_config | apply same_config_refl].
  - apply reset_same_config.
  - destruct (intervalHandle s);
      [apply takeSample_same_config | apply same_config_refl].
  - repeat split.
Qed.

Lemma run_cons (s : t) (op : Op) (ops : list Op) :
  run s (op :: ops)
  = (fst (run (fst (step s op)) ops),
     (snd (step s op) ++ snd (run (fst (step s op)) ops))%list).
Proof.
  cbn [run]. destruct (step s op) as [s1 c1]. cbn [fst snd].
  destruct (run s1 ops); reflexivity.
Qed.

Lemma run_app (ops1 ops2 : list Op) (s : t) :
  run s (ops1 ++ ops2)
  = (fst (run (fst (run s ops1)) ops2),
     (snd (run s ops1) ++ snd (run (fst (run s ops1)) ops2))%list).
Proof.
  revert s. induction ops1 as [|op ops1 IH]; intros s.
  - cbn. destruct (run s ops2); reflexivity.
  - rewrite <- app_comm_cons, !run_cons, IH. cbn [fst snd].
    rewrite app_assoc. reflexivity.
Qed.

Lemma run_same_config (ops : list Op) (s : t) :
  same_config s (fst (run s ops)).
Proof.
  revert s. induction ops as [|op ops IH]; intros s.
  - apply same_config_refl.
  - rewrite run_cons. cbn [fst].
    eapply same_config_trans; [apply step_same_config | apply IH].
Qed.

(** ** Reset *)

Lemma takeSample_running (env : TickEnv) (s : t) :
  running (fst (_takeSample env s)) = running s.
Proof. open_tick; reflexivity. Qed.

Lemma stop_not_running (env : StopEnv) (s : t) :
  running (fst (stop env s)) = false.
Proof.
  unfold stop. destruct (running s) eqn:Hr; cbn [negb]; [|exact Hr].
  match goal with
  | |- context [_takeSample ?e ?s0] =>
      pose proof (takeSample_running e s0) as H;
      destruct (_takeSample e s0) as [s1 calls]
  end.
  cbn [fst] in *. destruct (intervalHandle s1); cbn; exact H.
Qed.

(** What [reset()] clears. *)
Lemma reset_clears_state (env : StopEnv) (s : t) :
  let s' := fst (reset env s) in
  memorySamples s' = [] /\ cpuSamples s' = []
  /\ alertTriggerCount s' = 0 /\ timeOverTarget s' = 0
  /\ lastTargetCheck s' = None
  /\ startTime s' = None /\ endTime s' = None
  /\ running s' = false.
Proof.
  cbv zeta. unfold reset.
  pose proof (stop_not_running env s) as Hr.
  destruct (stop env s) as [s1 calls]. cbn [fst] in *.
  repeat split; cbn; assumption.
Qed.

(** C8. [reset()] empties both sample sequences, zeroes the alert
    counter and the time-over-target accumulator, clears the target
    checkpoint and both timestamps, and leaves the session stopped; the
    name, interval, threshold, target, alert callback and
    [monitorEventLoop] flag are the ones it had before. *)
Theorem reset_clears_state_keeps_configuration :
  forall (env : StopEnv) (s : t),
    let s' := fst (reset env s) in
    (memorySamples s' = [] /\ cpuSamples s' = []
     /\ alertTriggerCount s' = 0 /\ timeOverTarget s' = 0
     /\ lastTargetCheck s' = None
     /\ startTime s' = None /\ endTime s' = None
     /\ running s' = false)
    /\ (name s' = name s /\ interval s' = interval s
        /\ threshold s' = threshold s /\ target s' = target s
        /\ alert s' = alert s
        /\ monitorEventLoop s' = monitorEventLoop s).
Proof.
  intros env s s'. split.
  - apply reset_clears_state.
  - pose proof (reset_same_config env s) as (?&?&?&?&?&?&?).
    subst s'. repeat split; assumption.
Qed.

(** The lag samples of the monitor are not among the things [reset()]
    clears: they survive it (and every later [start()]). *)
Lemma reset_keeps_lag_samples (env : StopEnv) (s : t) :
  EventLoopMonitor.samples (eventLoopMonitor (fst (reset env s)))
  = EventLoopMonitor.samples (eventLoopMonitor s).
Proof.
  unfold reset, stop. destruct (running s); cbn [negb fst].
  - match goal with
    | |- context [_takeSample ?e ?s0] =>
        assert (H : eventLoopMonitor (fst (_takeSample e s0)) = eventLoopMonitor s)
          by (open_tick; reflexivity);
        destruct (_takeSample e s0) as [s1 calls]
    end.
    cbn [fst] in *. destruct (intervalHandle s1); cbn; rewrite H;
      unfold EventLoopMonitor.stop;
      destruct (EventLoopMonitor.checkInterval (eventLoopMonitor s)); reflexivity.
  - reflexivity.
Qed.

(** ** The CPU percentage *)

(** A binary64 value divided by zero and then multiplied by one hundred
    is [NaN] or an infinity. *)
Lemma div_zero_times_hundred (x : float) :
  let p := PrimFloat.mul (PrimFloat.div x (JS.of_Z 0)) (JS.of_Z 100) in
  Prim2SF p = S754_nan \/ exists sign, Prim2SF p = S754_infinity sign.
Proof.
  cbv zeta. rewrite mul_spec, div_spec.
  replace (Prim2SF (JS.of_Z 0)) with (S754_zero false) by (vm_compute; reflexivity).
  replace (Prim2SF (JS.of_Z 100))
    with (S754_finite false 7036874417766400 (-46)) by (vm_compute; reflexivity).
  destruct (Prim2SF x) as [sx|sx| |sx mx ex]; cbn.
  - left; reflexivity.
  - right; eexists; reflexivity.
  - left; reflexivity.
  - right; eexists; reflexivity.
Qed.

(** C2 (what the code does). When the new capture carries the timestamp
    of the previous one, the percentage stored in the new CPU snapshot is
    the result of a division by zero: it is [NaN] (no CPU time consumed
    in between) or an infinity, and in no case is it equal to [0]. *)
Theorem percentage_at_equal_timestamps :
  forall (prev : CPUSnapshot.t) (cpu : CpuUsage),
    let p := CPUSnapshot.percentage_from prev (CPUSnapshot.timestamp prev) cpu in
    PrimFloat.eqb p PrimFloat.zero = false
    /\ (PrimFloat.is_nan p = true \/ PrimFloat.is_infinity p = true).
Proof.
  intros prev cpu. unfold CPUSnapshot.percentage_from. cbv zeta.
  replace ((CPUSnapshot.timestamp prev - CPUSnapshot.timestamp prev) * 1000)
    with 0 by lia.
  match goal with
  | |- context [PrimFloat.div ?x _] =>
      pose proof (div_zero_times_hundred x) as H; cbv zeta in H;
      set (p := PrimFloat.mul (PrimFloat.div x (JS.of_Z 0)) (JS.of_Z 100)) in *
  end.
  unfold PrimFloat.is_nan, PrimFloat.is_infinity.
  rewrite !eqb_spec, abs_spec.
  replace (Prim2SF PrimFloat.zero) with (S754_zero false) by (vm_compute; reflexivity).
  replace (Prim2SF PrimFloat.infinity) with (S754_infinity false)
    by (vm_compute; reflexivity).
  destruct H as [H | [sign H]]; rewrite H; cbn.
  - split; [reflexivity | left; reflexivity].
  - split; [destruct sign; reflexivity | right; reflexivity].
Qed.

(** The two shapes of the failure on concrete captures: the same counters
    give [NaN], advanced counters give [Infinity]. *)
Example percentage_same_millisecond_values :
  let prev := {| CPUSnapshot.timestamp := 1700000000000;
                 CPUSnapshot.usage := {| user := 52000; system := 11000 |};
                 CPUSnapshot.percentage := PrimFloat.zero |} in
  (exists c, CPUSnapshot.new (Some prev) 1700000000000
               (Some {| user := 52000; system := 11000 |}) = Some c
             /\ PrimFloat.is_nan (CPUSnapshot.percentage c) = true)
  /\ (exists c, CPUSnapshot.new (Some prev) 1700000000000
                  (Some {| user := 52300; system := 11000 |}) = Some c
                /\ CPUSnapshot.percentage c = PrimFloat.infinity)
  /\ (exists c, CPUSnapshot.new (Some prev) 1700000000001
                  (Some {| user := 52300; system := 11000 |}) = Some c
                /\ CPUSnapshot.percentage c = 30%float).
Proof.
  cbv zeta. repeat split; eexists; (split; [reflexivity | vm_compute; reflexivity]).
Qed.

(** ** The first CPU sample and the CPU statistics *)

Lemma array_get_last_nil {A : Type} :
  JS.array_get (@nil A) (JS.length (@nil A) - 1) = None.
Proof. reflexivity. Qed.

Lemma takeSample_first_cpu_zero (env : TickEnv) (s : t) :
  first_cpu_zero s -> first_cpu_zero (fst (_takeSample env s)).
Proof.
  unfold first_cpu_zero. intros H.
  assert (Hcpu :
    cpuSamples (fst (_takeSample env s)) = cpuSamples s
    \/ exists c, cpuSamples (fst (_takeSample env s)) = JS.push (cpuSamples s) c
                 /\ (cpuSamples s = [] -> CPUSnapshot.percentage c = PrimFloat.zero)).
  { unfold _takeSample.
    destruct (MemorySnapshot.new _ _) as [m|]; [|left; reflexivity].
    cbn [cpuSamples set_memorySamples].
    destruct (CPUSnapshot.new _ _ _) as [c|] eqn:Hc; [|left; reflexivity].
    right. exists c. split.
    - unfold check_threshold, track_target. repeat (break_match; cbn [fst snd]);
        reflexivity.
    - intros Hnil. rewrite Hnil, array_get_last_nil in Hc.
      unfold CPUSnapshot.new in Hc. destruct (cpuUsage env); [|discriminate].
      injection Hc as <-. reflexivity. }
  destruct Hcpu as [-> | (c & -> & Hc)]; [exact H|].
  unfold JS.push. destruct (cpuSamples s) as [|c0 rest]; cbn.
  - apply Hc. reflexivity.
  - exact H.
Qed.

Lemma step_first_cpu_zero (s : t) (op : Op) :
  first_cpu_zero s -> first_cpu_zero (fst (step s op)).
Proof.
  intros H.
  assert (Hstop : forall env, first_cpu_zero (fst (stop env s))).
  { intros env. unfold stop. destruct (running s); cbn [negb]; [|exact H].
    match goal with
    | |- context [_takeSample ?e ?s0] =>
        pose proof (takeSample_first_cpu_zero e s0 H) as Hk;
        destruct (_takeSample e s0) as [s1 calls]
    end.
    cbn [fst] in *. destruct (intervalHandle s1); exact Hk. }
  destruct op; cbn [step].
  - unfold start. destruct (running s); [exact H|].
    match goal with
    | |- context [_takeSample ?e ?s0] =>
        pose proof (takeSample_first_cpu_zero e s0 I) as Hk;
        destruct (_takeSample e s0) as [s1 calls]
    end.
    cbn [fst] in *. destruct (monitorEventLoop s1); exact Hk.
  - apply Hstop.
  - rewrite report_state. destruct (running s); [apply Hstop | exact H].
  - unfold reset. destruct (stop env s). exact I.
  - destruct (intervalHandle s); [apply takeSample_first_cpu_zero|]; exact H.
  - exact H.
Qed.

Lemma run_first_cpu_zero (ops : list Op) (s : t) :
  first_cpu_zero s -> first_cpu_zero (fst (run s ops)).
Proof.
  revert s. induction ops as [|op ops IH]; intros s H; [exact H|].
  rewrite run_cons. cbn [fst]. apply IH, step_first_cpu_zero, H.
Qed.

Lemma report_cpu (env : ReportEnv) (s : t) :
  cpu (snd (report env s))
  = _calculateStats (JS.slice1 (cpuSamples (fst (fst (report env s)))))
      CPUSnapshot.percentage.
Proof.
  unfold report. destruct (running s).
  - destruct (stop (report_stop env) s); reflexivity.
  - reflexivity.
Qed.

(** C7. In the report of any session reached from its construction, the
    CPU statistics are those of the CPU sequence without its first
    element; that first element has percentage [0]; and when the
    sequence holds exactly two samples the statistics are computed over
    the single remaining one. *)
Theorem cpu_statistics_exclude_first_sample :
  forall (options : Options.t) (collected : option SystemInfo) (d : t)
         (ops : list Op) (env : ReportEnv),
    constructor options collected = Ok d ->
    let result := report env (fst (run d ops)) in
    let samples := cpuSamples (fst (fst result)) in
    cpu (snd result) = _calculateStats (tl samples) CPUSnapshot.percentage
    /\ (forall c rest, samples = c :: rest ->
          CPUSnapshot.percentage c = PrimFloat.zero)
    /\ (List.length samples = 2%nat ->
        exists c1 c2,
          samples = [c1; c2]
          /\ List.length (map CPUSnapshot.percentage (tl samples)) = 1%nat
          /\ cpu (snd result)
             = _calculateStats [c2] CPUSnapshot.percentage).
Proof.
  intros options collected d ops env Hd result samples.
  assert (Hcpu : cpu (snd result)
                 = _calculateStats (tl samples) CPUSnapshot.percentage)
    by apply report_cpu.
  split; [exact Hcpu|]. split.
  - intros c rest Hs.
    assert (Hz : first_cpu_zero (fst (fst result))).
    { subst result. rewrite report_state.
      assert (H0 : first_cpu_zero (fst (run d ops))).
      { apply run_first_cpu_zero. unfold constructor in Hd.
        destruct (Options.name options) as [n|]; [|discriminate].
        destruct (negb (JS.truthy_string n)); [discriminate|].
        injection Hd as <-. exact I. }
      destruct (running (fst (run d ops))); [|exact H0].
      apply (step_first_cpu_zero _ (OpStop (report_stop env)) H0). }
    unfold first_cpu_zero in Hz. fold samples in Hz. rewrite Hs in Hz. exact Hz.
  - intros Hlen. rewrite Hcpu.
    destruct samples as [|c1 [|c2 [|c3 rest]]]; try discriminate.
    exists c1, c2. repeat split.
Qed.

(** ** Falsy option values *)

Lemma takeSample_alerts_off (env : TickEnv) (s : t) :
  threshold s = None ->
  snd (_takeSample env s) = []
  /\ alertTriggerCount (fst (_takeSample env s)) = alertTriggerCount s.
Proof.
  intros H. unfold _takeSample, check_threshold.
  destruct (MemorySnapshot.new _ _); [|split; reflexivity].
  destruct (CPUSnapshot.new _ _ _); [|split; reflexivity].
  cbn [threshold set_cpuSamples set_memorySamples]. rewrite H.
  cbn [fst snd]. split; [reflexivity|].
  unfold track_target. repeat (break_match; cbn); reflexivity.
Qed.

Lemma takeSample_target_off (env : TickEnv) (s : t) :
  target s = None ->
  timeOverTarget (fst (_takeSample env s)) = timeOverTarget s.
Proof.
  intros H. unfold _takeSample.
  destruct (MemorySnapshot.new _ _); [|reflexivity].
  destruct (CPUSnapshot.new _ _ _); [|reflexivity].
  match goal with
  | |- context [check_threshold ?e ?m ?s0] =>
      assert (Hc : target (fst (check_threshold e m s0)) = None
                   /\ timeOverTarget (fst (check_threshold e m s0))
                      = timeOverTarget s)
        by (unfold check_threshold; repeat (break_match; cbn); auto);
      destruct (check_threshold e m s0) as [s1 calls]
  end.
  cbn [fst] in *. destruct Hc as [Ht Ho].
  unfold track_target. rewrite Ht. exact Ho.
Qed.

Lemma step_alerts_off (s : t) (op : Op) :
  alerts_off s -> alerts_off (fst (step s op)) /\ snd (step s op) = [].
Proof.
  intros [Hth Hn].
  pose proof (step_same_config s op) as (_&_&Hth'&_).
  unfold alerts_off. rewrite Hth', Hth.
  assert (Hstop : forall env,
    alertTriggerCount (fst (stop env s)) = 0 /\ snd (stop env s) = []).
  { intros env. unfold stop. destruct (running s); cbn [negb]; [|auto].
    match goal with
    | |- context [_takeSample ?e ?s0] =>
        pose proof (takeSample_alerts_off e s0 Hth) as [Hc Ha];
        destruct (_takeSample e s0) as [s1 calls]
    end.
    cbn [fst snd] in *. destruct (intervalHandle s1); cbn; split; auto;
      rewrite Ha; exact Hn. }
  destruct op; cbn [step].
  - unfold start. destruct (running s); [auto|].
    match goal with
    | |- context [_takeSample ?e ?s0] =>
        pose proof (takeSample_alerts_off e s0 Hth) as [Hc Ha];
        destruct (_takeSample e s0) as [s1 calls]
    end.
    cbn [fst snd] in *. destruct (monitorEventLoop s1); cbn; auto.
  - destruct (Hstop env); auto.
  - rewrite report_state. destruct (running s); [destruct (Hstop (report_stop env))|];
      auto.
  - unfold reset. destruct (Hstop env) as [_ Hc].
    destruct (stop env s); cbn in *; auto.
  - destruct (intervalHandle s); [|auto].
    destruct (takeSample_alerts_off env s Hth) as [Hc Ha].
    rewrite Ha; auto.
  - auto.
Qed.

Lemma run_alerts_off (ops : list Op) (s : t) :
  alerts_off s -> alerts_off (fst (run s ops)) /\ snd (run s ops) = [].
Proof.
  revert s. induction ops as [|op ops IH]; intros s H; [split; auto|].
  rewrite run_cons. cbn [fst snd].
  destruct (step_alerts_off s op H) as [H1 ->].
  destruct (IH _ H1) as [H2 ->]. auto.
Qed.

Lemma step_target_off (s : t) (op : Op) :
  target_off s -> target_off (fst (step s op)).
Proof.
  intros [Htg Hn].
  pose proof (step_same_config s op) as (_&_&_&_&Htg'&_).
  unfold target_off. rewrite Htg', Htg. split; [reflexivity|].
  assert (Hstop : forall env, timeOverTarget (fst (stop env s)) = 0).
  { intros env. unfold stop. destruct (running s); cbn [negb]; [|auto].
    match goal with
    | |- context [_takeSample ?e ?s0] =>
        pose proof (takeSample_target_off e s0 Htg) as Ha;
        destruct (_takeSample e s0) as [s1 calls]
    end.
    cbn [fst snd] in *. destruct (intervalHandle s1); cbn; rewrite Ha; exact Hn. }
  destruct op; cbn [step].
  - unfold start. destruct (running s); [auto|].
    match goal with
    | |- context [_takeSample ?e ?s0] =>
        pose proof (takeSample_target_off e s0 Htg) as Ha;
        destruct (_takeSample e s0) as [s1 calls]
    end.
    cbn [fst snd] in *. destruct (monitorEventLoop s1); cbn; auto.
  - apply Hstop.
  - rewrite report_state. destruct (running s); [apply Hstop | auto].
  - unfold reset. destruct (stop env s); reflexivity.
  - destruct (intervalHandle s); [|auto].
    rewrite (takeSample_target_off env s Htg); auto.
  - auto.
Qed.

Lemma run_target_off (ops : list Op) (s : t) :
  target_off s -> target_off (fst (run s ops)).
Proof.
  revert s. induction ops as [|op ops IH]; intros s H; [exact H|].
  rewrite run_cons. cbn [fst]. apply IH, step_target_off, H.
Qed.

(** C10. An interval, threshold or target of [0] builds the very session
    that the same options without that property build.  Hence: with a
    falsy interval the session samples every 5000 ms; with a falsy
    threshold no operation ever calls the alert callback or counts an
    alert; with a falsy target no operation ever accumulates time over
    target. *)
Theorem zero_options_are_unconfigured :
  forall (options : Options.t) (collected : option SystemInfo),
    constructor (Options.with_interval (Some 0) options) collected
    = constructor (Options.with_interval None options) collected
    /\ constructor (Options.with_threshold (Some 0) options) collected
       = constructor (Options.with_threshold None options) collected
    /\ constructor (Options.with_target (Some 0) options) collected
       = constructor (Options.with_target None options) collected
    /\ forall d, constructor options collected = Ok d ->
         (JS.truthy_opt (Options.interval options) = false ->
            interval d = 5000)
         /\ (JS.truthy_opt (Options.threshold options) = false ->
               threshold d = None
               /\ forall ops, snd (run d ops) = []
                              /\ alertTriggerCount (fst (run d ops)) = 0)
         /\ (JS.truthy_opt (Options.target options) = false ->
               target d = None
               /\ forall ops, timeOverTarget (fst (run d ops)) = 0).
Proof.
  intros options collected.
  split; [reflexivity|]. split; [reflexivity|]. split; [reflexivity|].
  intros d Hd. unfold constructor in Hd.
  destruct (Options.name options) as [n|]; [|discriminate].
  destruct (negb (JS.truthy_string n)); [discriminate|].
  injection Hd as <-. cbn [interval threshold target].
  split; [|split].
  - unfold JS.truthy_opt, JS.or_num.
    destruct (Options.interval options) as [z|]; [|reflexivity].
    intros ->. reflexivity.
  - intros Hf.
    assert (Hnone : JS.or_null (Options.threshold options) = None).
    { unfold JS.truthy_opt, JS.or_null in *.
      destruct (Options.threshold options) as [z|]; [|reflexivity].
      rewrite Hf. reflexivity. }
    split; [exact Hnone|]. intros ops.
    match goal with
    | |- context [run ?d0 ops] =>
        destruct (run_alerts_off ops d0) as [[_ Hc] Hcalls]
    end.
    { split; [exact Hnone | reflexivity]. }
    split; assumption.
  - intros Hf.
    assert (Hnone : JS.or_null (Options.target options) = None).
    { unfold JS.truthy_opt, JS.or_null in *.
      destruct (Options.target options) as [z|]; [|reflexivity].
      rewrite Hf. reflexivity. }
    split; [exact Hnone|]. intros ops.
    match goal with
    | |- context [run ?d0 ops] =>
        destruct (run_target_off ops d0) as [_ Hc]
    end.
    { split; [exact Hnone | reflexivity]. }
    exact Hc.
Qed.

(** ** What a tick appends *)

(** A tick writes the two sequences, the alert counter, the accumulator
    and the checkpoint, and nothing else. *)
Lemma takeSample_frame (env : TickEnv) (s : t) :
  let s' := fst (_takeSample env s) in
  running s' = running s /\ startTime s' = startTime s
  /\ endTime s' = endTime s /\ intervalHandle s' = intervalHandle s
  /\ eventLoopMonitor s' = eventLoopMonitor s.
Proof. cbv zeta. open_tick; repeat split. Qed.

Lemma takeSample_memorySamples (env : TickEnv) (s : t) :
  memorySamples (fst (_takeSample env s))
  = (memorySamples s ++ mem_appended env)%list.
Proof.
  unfold mem_appended, _takeSample.
  destruct (MemorySnapshot.new _ _) as [m|]; [|cbn; rewrite app_nil_r; reflexivity].
  destruct (CPUSnapshot.new _ _ _) as [c|]; [|reflexivity].
  unfold check_threshold, track_target.
  repeat (break_match; cbn [fst snd]); reflexivity.
Qed.

Lemma takeSample_cpu_length (env : TickEnv) (s : t) :
  List.length (cpuSamples (fst (_takeSample env s)))
  = (List.length (cpuSamples s) + if captures_ok env then 1 else 0)%nat.
Proof.
  unfold captures_ok, mem_ok, cpu_ok, _takeSample, MemorySnapshot.new,
    CPUSnapshot.new.
  destruct (memoryUsage env); cbn [andb fst]; [|lia].
  destruct (cpuUsage env); cbn [fst cpuSamples set_memorySamples]; [|lia].
  unfold check_threshold, track_target.
  repeat (break_match; cbn [fst snd]); cbn; unfold JS.push;
    rewrite length_app; reflexivity.
Qed.

Lemma mem_appended_length (env : TickEnv) :
  List.length (mem_appended env) = if mem_ok env then 1%nat else 0%nat.
Proof.
  unfold mem_appended, mem_ok, MemorySnapshot.new.
  destruct (memoryUsage env); reflexivity.
Qed.

(** A tick keeps the two lengths equal when its CPU capture does not
    fail after the memory capture; otherwise memory gains one element
    that the CPU sequence does not. *)
Lemma takeSample_length_difference (env : TickEnv) (s : t) :
  let s' := fst (_takeSample env s) in
  (Z.of_nat (List.length (memorySamples s'))
   - Z.of_nat (List.length (cpuSamples s')))
  = (Z.of_nat (List.length (memorySamples s))
     - Z.of_nat (List.length (cpuSamples s)))
    + (if paired env then 0 else 1).
Proof.
  cbv zeta. rewrite takeSample_memorySamples, takeSample_cpu_length, length_app,
    mem_appended_length.
  unfold paired, captures_ok. destruct (mem_ok env), (cpu_ok env); cbn; lia.
Qed.

Lemma takeSample_same_lengths (env : TickEnv) (s : t) :
  paired env = true -> same_lengths s -> same_lengths (fst (_takeSample env s)).
Proof.
  unfold same_lengths, JS.length. intros Hp H.
  pose proof (takeSample_length_difference env s) as Hd. cbv zeta in Hd.
  rewrite Hp in Hd. lia.
Qed.

Lemma stop_same_lengths (env : StopEnv) (s : t) :
  paired (final_sample env) = true ->
  same_lengths s -> same_lengths (fst (stop env s)).
Proof.
  intros Hp H. unfold stop. destruct (running s); cbn [negb]; [|exact H].
  match goal with
  | |- context [_takeSample ?e ?s0] =>
      pose proof (takeSample_same_lengths e s0 Hp H) as Hk;
      destruct (_takeSample e s0) as [s1 calls]
  end.
  cbn [fst] in *. destruct (intervalHandle s1); exact Hk.
Qed.

Lemma step_same_lengths (s : t) (op : Op) :
  op_paired op = true -> same_lengths s -> same_lengths (fst (step s op)).
Proof.
  intros Hp H. destruct op; cbn [step]; cbn in Hp.
  - unfold start. destruct (running s); [exact H|].
    match goal with
    | |- context [_takeSample ?e ?s0] =>
        pose proof (takeSample_same_lengths e s0 Hp eq_refl) as Hk;
        destruct (_takeSample e s0) as [s1 calls]
    end.
    cbn [fst] in *. destruct (monitorEventLoop s1); exact Hk.
  - apply stop_same_lengths; assumption.
  - rewrite report_state. destruct (running s);
      [apply stop_same_lengths|]; assumption.
  - unfold reset. destruct (stop env s). reflexivity.
  - destruct (intervalHandle s); [apply takeSample_same_lengths|]; assumption.
  - exact H.
Qed.

Lemma run_same_lengths (ops : list Op) (s : t) :
  forallb op_paired ops = true ->
  same_lengths s -> same_lengths (fst (run s ops)).
Proof.
  revert s. induction ops as [|op ops IH]; intros s Hp H; [exact H|].
  cbn [forallb] in Hp. apply andb_prop in Hp as [Hop Hops].
  rewrite run_cons. cbn [fst]. apply IH; [exact Hops|].
  apply step_same_lengths; assumption.
Qed.

(** ** One measurement window *)

Lemma ticks_memorySamples (ticks : list TickEnv) (s : t) :
  intervalHandle s <> None ->
  let s' := fst (run s (map OpTick ticks)) in
  memorySamples s' = (memorySamples s ++ flat_map mem_appended ticks)%list
  /\ running s' = running s /\ intervalHandle s' = intervalHandle s
  /\ startTime s' = startTime s /\ endTime s' = endTime s.
Proof.
  revert s. induction ticks as [|env ticks IH]; intros s Hh; cbv zeta.
  - cbn. rewrite app_nil_r. repeat split.
  - cbn [map]. rewrite run_cons. cbn [fst step].
    destruct (intervalHandle s) as [h|] eqn:Hs; [|contradiction].
    pose proof (takeSample_frame env s) as (Hr & Hst & He & Hi & _).
    pose proof (takeSample_memorySamples env s) as Hm.
    specialize (IH (fst (_takeSample env s))). cbv zeta in IH.
    destruct IH as (IHm & IHr & IHi & IHs & IHe); [rewrite Hi, Hs; discriminate|].
    rewrite IHm, IHr, IHi, IHs, IHe, Hm, Hr, Hi, Hst, He, Hs.
    cbn [flat_map]. rewrite <- app_assoc. repeat split.
Qed.

(** After [start()] on a stopped session the memory sequence holds the
    first sample alone, and the sampling timer is armed. *)
Lemma start_memorySamples (b : StartEnv) (s : t) :
  running s = false ->
  let s' := fst (start b s) in
  memorySamples s' = mem_appended (first_sample b)
  /\ running s' = true /\ intervalHandle s' <> None
  /\ startTime s' = Some (now_startTime b).
Proof.
  intros Hr. cbv zeta. unfold start. rewrite Hr.
  match goal with
  | |- context [_takeSample ?e ?s0] =>
      pose proof (takeSample_frame e s0) as (Hrun & Hst & _);
      pose proof (takeSample_memorySamples e s0) as Hm;
      destruct (_takeSample e s0) as [s1 calls]
  end.
  cbn [fst] in *. cbn in Hm, Hrun, Hst.
  destruct (monitorEventLoop s1); cbn; rewrite Hm, Hrun, Hst;
    repeat split; discriminate.
Qed.

Lemma stop_memorySamples (e : StopEnv) (s : t) :
  running s = true ->
  let s' := fst (stop e s) in
  memorySamples s' = (memorySamples s ++ mem_appended (final_sample e))%list
  /\ running s' = false
  /\ startTime s' = startTime s /\ endTime s' = Some (now_endTime e).
Proof.
  intros Hr. cbv zeta. unfold stop. rewrite Hr. cbn [negb].
  match goal with
  | |- context [_takeSample ?e ?s0] =>
      pose proof (takeSample_frame e s0) as (Hrun & Hst & Hend & _);
      pose proof (takeSample_memorySamples e s0) as Hm;
      destruct (_takeSample e s0) as [s1 calls]
  end.
  cbn [fst] in *. cbn in Hm, Hrun, Hst, Hend.
  destruct (intervalHandle s1); cbn; rewrite Hm, Hrun, Hst, Hend; repeat split.
Qed.

Lemma run_cycle (b : StartEnv) (ticks : list TickEnv) (e : StopEnv) (s : t) :
  fst (run s (cycle b ticks e))
  = fst (stop e (fst (run (fst (start b s)) (map OpTick ticks)))).
Proof.
  unfold cycle. rewrite run_cons. cbn [fst step]. rewrite run_app. cbn [fst].
  rewrite run_cons. cbn [fst step run]. reflexivity.
Qed.

(** The memory sequence after a whole window is made of the samples of
    that window only. *)
Lemma cycle_memorySamples (b : StartEnv) (ticks : list TickEnv) (e : StopEnv)
  (s : t) :
  running s = false ->
  let s' := fst (run s (cycle b ticks e)) in
  memorySamples s'
  = flat_map mem_appended (first_sample b :: ticks ++ [final_sample e])
  /\ running s' = false
  /\ startTime s' = Some (now_startTime b)
  /\ endTime s' = Some (now_endTime e).
Proof.
  intros Hr. cbv zeta. rewrite run_cycle.
  destruct (start_memorySamples b s Hr) as (Hm0 & Hr0 & Hi0 & Hs0).
  destruct (ticks_memorySamples ticks _ Hi0) as (Hm1 & Hr1 & _ & Hs1 & _).
  rewrite Hr0 in Hr1.
  destruct (stop_memorySamples e _ Hr1) as (Hm2 & Hr2 & Hs2 & He2).
  rewrite Hm2, Hm1, Hm0, Hr2, Hs2, Hs1, Hs0, He2.
  cbn [flat_map]. rewrite flat_map_app. cbn [flat_map].
  rewrite app_nil_r, <- app_assoc. repeat split.
Qed.

(** ** The wall clock along a run *)

Lemma last_cons (x : Z) (l : list Z) (t : Z) :
  last (x :: l) t = last l x.
Proof.
  revert x t. induction l as [|y l IH]; intros x t; [reflexivity|].
  change (last (x :: y :: l) t) with (last (y :: l) t).
  rewrite (IH y t), (IH y x). reflexivity.
Qed.

Lemma last_append (l1 l2 : list Z) (t : Z) :
  last (l1 ++ l2) t = last l2 (last l1 t).
Proof.
  revert t. induction l1 as [|x l1 IH]; intros t; [reflexivity|].
  rewrite <- app_comm_cons, !last_cons. apply IH.
Qed.

Lemma chain_app (l1 l2 : list Z) (t : Z) :
  chain t (l1 ++ l2) = chain t l1 && chain (last l1 t) l2.
Proof.
  revert t. induction l1 as [|x l1 IH]; intros t; [reflexivity|].
  rewrite last_cons. cbn [app chain]. rewrite IH, andb_assoc. reflexivity.
Qed.

Lemma chain_le_last (l : list Z) (t : Z) :
  chain t l = true -> t <= last l t.
Proof.
  revert t. induction l as [|x l IH]; intros t H; [cbn; lia|].
  cbn [chain] in H. apply andb_prop in H as [Hx Hl].
  apply Z.leb_le in Hx. specialize (IH x Hl).
  rewrite last_cons. lia.
Qed.

Lemma chain_weaken (l : list Z) (t t' : Z) :
  t' <= t -> chain t l = true -> chain t' l = true.
Proof.
  intros Hle H. destruct l as [|x l]; [reflexivity|].
  cbn [chain] in *. apply andb_prop in H as [Hx Hl].
  apply Z.leb_le in Hx. rewrite Hl, andb_true_r. apply Z.leb_le. lia.
Qed.

Lemma chain_tick_clock (env : TickEnv) (t : Z) :
  chain t (tick_clock env) = true ->
  t <= now_target env /\ last (tick_clock env) t = now_target env.
Proof.
  intros H. split; [|reflexivity].
  apply chain_le_last in H. exact H.
Qed.

(** ** Target tracking *)

(** What a tick does to the accumulator and the checkpoint: nothing, or
    it moves the checkpoint to the tick's reading and adds nothing or the
    time since the previous checkpoint. *)
Lemma takeSample_target (env : TickEnv) (s : t) :
  let s' := fst (_takeSample env s) in
  (timeOverTarget s' = timeOverTarget s
   /\ lastTargetCheck s' = lastTargetCheck s)
  \/ (lastTargetCheck s' = Some (now_target env)
      /\ (timeOverTarget s' = timeOverTarget s
          \/ exists last, lastTargetCheck s = Some last
                          /\ timeOverTarget s'
                             = timeOverTarget s + (now_target env - last))).
Proof.
  cbv zeta. unfold _takeSample.
  destruct (MemorySnapshot.new _ _) as [m|]; [|left; split; reflexivity].
  destruct (CPUSnapshot.new _ _ _) as [c|]; [|left; split; reflexivity].
  match goal with
  | |- context [check_threshold ?e ?m ?s0] =>
      assert (Hc : target (fst (check_threshold e m s0)) = target s
                   /\ timeOverTarget (fst (check_threshold e m s0))
                      = timeOverTarget s
                   /\ lastTargetCheck (fst (check_threshold e m s0))
                      = lastTargetCheck s)
        by (unfold check_threshold; repeat (break_match; cbn); auto);
      destruct (check_threshold e m s0) as [s1 calls]
  end.
  cbn [fst] in *. destruct Hc as (Ht & Ho & Hl).
  unfold track_target.
  destruct (target s1) as [tg|]; [|left; split; assumption].
  destruct (JS.truthy tg); [|left; split; assumption].
  right. destruct (lastTargetCheck s1) as [last|] eqn:Hlast.
  - destruct (JS.truthy last); [|cbn; auto].
    destruct (MemorySnapshot.total m >? tg); cbn; [|auto].
    split; [reflexivity|]. right. exists last. rewrite <- Hl, Ho. auto.
  - cbn. auto.
Qed.




Lemma clock_of_app (ops1 ops2 : list Op) :
  clock_of (ops1 ++ ops2) = (clock_of ops1 ++ clock_of ops2)%list.
Proof. apply flat_map_app. Qed.



Lemma takeSample_tracked (env : TickEnv) (s : t) (c now : Z) :
  tracked c s now -> chain now (tick_clock env) = true ->
  tracked c (fst (_takeSample env s)) (now_target env).
Proof.
  intros (last & Hl & Hb & Ho) Hchain.
  apply chain_tick_clock in Hchain as [Hle _]. unfold tracked.
  destruct (takeSample_target env s) as [[Ho' Hl'] | [Hl' [Ho' | (l0 & Hs & Ho')]]];
    rewrite Ho', Hl'.
  - exists last. repeat split; try assumption; lia.
  - exists (now_target env). repeat split; lia.
  - rewrite Hl in Hs. injection Hs as <-.
    exists (now_target env). repeat split; lia.
Qed.

Lemma ticks_tracked (ticks : list TickEnv) (s : t) (c now : Z) :
  intervalHandle s <> None ->
  tracked c s now -> chain now (clock_of (map OpTick ticks)) = true ->
  tracked c (fst (run s (map OpTick ticks)))
    (last (clock_of (map OpTick ticks)) now).
Proof.
  revert s now. induction ticks as [|env ticks IH]; intros s now Hh Ht Hchain;
    [exact Ht|].
  cbn [map] in *.
  change (clock_of (OpTick env :: map OpTick ticks))
    with (tick_clock env ++ clock_of (map OpTick ticks))%list in *.
  rewrite chain_app in Hchain. apply andb_prop in Hchain as [Hop Hops].
  rewrite run_cons, last_append. cbn [fst step].
  destruct (intervalHandle s) as [h|] eqn:Hs; [|contradiction].
  pose proof (takeSample_frame env s) as (_ & _ & _ & Hi & _).
  apply IH.
  - rewrite Hi, Hs. discriminate.
  - apply (takeSample_tracked env s c now Ht Hop).
  - exact Hops.
Qed.

Lemma start_tracked (b : StartEnv) (s : t) (now : Z) :
  running s = false ->
  chain now (op_clock (OpStart b)) = true ->
  tracked (now_lastTargetCheck b) (fst (start b s)) (now_target (first_sample b)).
Proof.
  intros Hr Hchain. cbn [op_clock chain] in Hchain.
  apply andb_prop in Hchain as [_ Hchain].
  apply andb_prop in Hchain as [_ Hchain].
  unfold start. rewrite Hr.
  match goal with
  | |- context [_takeSample ?e ?s0] =>
      assert (Hk : tracked (now_lastTargetCheck b) (fst (_takeSample e s0))
                     (now_target e));
        [apply (takeSample_tracked e s0 _ (now_lastTargetCheck b));
           [exists (now_lastTargetCheck b); cbn; repeat split; lia | exact Hchain]
        | destruct (_takeSample e s0) as [s1 calls]]
  end.
  cbn [fst] in *. destruct (monitorEventLoop s1); exact Hk.
Qed.

Lemma stop_tracked (e : StopEnv) (s : t) (c now : Z) :
  tracked c s now -> chain now (stop_clock e) = true ->
  tracked c (fst (stop e s)) (now_target (final_sample e)).
Proof.
  intros Ht Hchain. unfold stop_clock in Hchain. cbn [chain] in Hchain.
  apply andb_prop in Hchain as [Hend Htick]. apply Z.leb_le in Hend.
  pose proof (chain_tick_clock _ _ Htick) as [Hle _].
  assert (Ht' : tracked c s (now_endTime e)).
  { destruct Ht as (last & Hl & Hb & Ho). exists last.
    repeat split; try assumption; lia. }
  unfold stop. destruct (running s); cbn [negb fst].
  - match goal with
    | |- context [_takeSample ?env ?s0] =>
        assert (Hk : tracked c (fst (_takeSample env s0)) (now_target env))
          by (apply (takeSample_tracked env s0 c (now_endTime e)); assumption);
        destruct (_takeSample env s0) as [s1 calls]
    end.
    cbn [fst] in *. destruct (intervalHandle s1); exact Hk.
  - destruct Ht' as (last & Hl & Hb & Ho). exists last.
    repeat split; try assumption; lia.
Qed.

Lemma clock_of_cycle (b : StartEnv) (ticks : list TickEnv) (e : StopEnv) :
  clock_of (cycle b ticks e)
  = (op_clock (OpStart b) ++ clock_of (map OpTick ticks) ++ stop_clock e)%list.
Proof.
  unfold cycle. change (OpStart b :: map OpTick ticks ++ [OpStop e])%list
    with ([OpStart b] ++ map OpTick ticks ++ [OpStop e])%list.
  rewrite !clock_of_app. cbn [clock_of flat_map op_clock].
  rewrite !app_nil_r. reflexivity.
Qed.

(** The accumulator after a whole window, under a clock that does not go
    back: at most the time between the checkpoint taken by [start()] and
    the reading of the final sample. *)
Lemma cycle_tracked (b : StartEnv) (ticks : list TickEnv) (e : StopEnv)
  (s : t) (now : Z) :
  running s = false ->
  chain now (clock_of (cycle b ticks e)) = true ->
  tracked (now_lastTargetCheck b) (fst (run s (cycle b ticks e)))
    (now_target (final_sample e)).
Proof.
  intros Hr Hchain. rewrite clock_of_cycle, !chain_app in Hchain.
  apply andb_prop in Hchain as [Hstart Hchain].
  apply andb_prop in Hchain as [Hticks Hstop].
  rewrite run_cycle.
  destruct (start_memorySamples b s Hr) as (_ & _ & Hi & _).
  pose proof (start_tracked b s now Hr Hstart) as H1.
  change (last (op_clock (OpStart b)) now)
    with (now_target (first_sample b)) in Hticks, Hstop.
  pose proof (ticks_tracked ticks _ _ _ Hi H1 Hticks) as H2.
  apply (stop_tracked e _ _ _ H2 Hstop).
Qed.

(** The clock and target figures of the report of a stopped session. *)
Lemma report_stopped (env : ReportEnv) (s : t) (b e : Z) :
  running s = false ->
  startTime s = Some b -> endTime s = Some e -> 0 < b -> 0 < e ->
  let r := snd (report env s) in
  duration (clock r) = e - b
  /\ analysis_timeOverTarget (analysis r) = timeOverTarget s
  /\ timeUnderTarget (analysis r) = Z.max 0 (e - b - timeOverTarget s)
  /\ numSamples (analysis r) = JS.length (memorySamples s).
Proof.
  intros Hr Hs He Hb He0. cbv zeta. unfold report. rewrite Hr, Hs, He.
  cbn [snd clock analysis duration analysis_timeOverTarget timeUnderTarget
       numSamples].
  unfold JS.truthy.
  destruct (Z.eqb_spec e 0); [lia|]. destruct (Z.eqb_spec b 0); [lia|].
  cbn [negb]. repeat split.
Qed.

(** C3 (as the code has it). For a session started and stopped under a
    clock that does not go back (readings positive), the report's
    [timeOverTarget + timeUnderTarget] is the larger of [clock.duration]
    and [timeOverTarget].  It is therefore never below [clock.duration];
    it exceeds it by no more than the time that passes inside [stop()]
    between the reading stored as [endTime] and the reading of the final
    sample's target check; and it never exceeds the time from
    [startTime] to that last reading. *)
Theorem target_times_cover_duration :
  forall (s : t) (b : StartEnv) (ticks : list TickEnv) (e : StopEnv)
         (env : ReportEnv),
    running s = false ->
    chain 1 (clock_of (cycle b ticks e)) = true ->
    let r := snd (report env (fst (run s (cycle b ticks e)))) in
    let over := analysis_timeOverTarget (analysis r) in
    let total := over + timeUnderTarget (analysis r) in
    let elapsed := duration (clock r) in
    elapsed = now_endTime e - now_startTime b
    /\ 0 <= over
    /\ total = Z.max elapsed over
    /\ elapsed <= total <= elapsed + (now_target (final_sample e) - now_endTime e)
    /\ total <= now_target (final_sample e) - now_startTime b.
Proof.
  intros s b ticks e env Hr Hchain. cbv zeta.
  destruct (cycle_memorySamples b ticks e s Hr) as (_ & Hr' & Hs & He).
  destruct (cycle_tracked b ticks e s 1 Hr Hchain) as (checkpoint & _ & Hb & Ho).
  assert (Hclock : 1 <= now_startTime b <= now_lastTargetCheck b
                   /\ 1 <= now_endTime e <= now_target (final_sample e)).
  { rewrite clock_of_cycle, !chain_app in Hchain.
    apply andb_prop in Hchain as [Hstart Hchain].
    apply andb_prop in Hchain as [Hticks Hstop].
    change (last (op_clock (OpStart b)) 1)
      with (now_target (first_sample b)) in Hticks, Hstop.
    pose proof (chain_le_last _ _ Hticks) as H2.
    cbn in Hstart, Hstop. chain_facts Hstart. chain_facts Hstop.
    lia. }
  destruct (report_stopped env _ _ _ Hr' Hs He) as (Hd & Hover & Hunder & _);
    [lia | lia |].
  rewrite Hd, Hover, Hunder. lia.
Qed.

(** ** Sample counts across measurement windows *)

Lemma flat_map_mem_appended_length (envs : list TickEnv) :
  forallb mem_ok envs = true ->
  List.length (flat_map mem_appended envs) = List.length envs.
Proof.
  induction envs as [|env envs IH]; intros H; [reflexivity|].
  cbn [forallb] in H. apply andb_prop in H as [Hm Hrest].
  cbn [flat_map]. rewrite length_app, mem_appended_length, Hm, (IH Hrest).
  reflexivity.
Qed.

(** C1 (as the code has it). Every [start()] on a stopped session begins
    a new collection: after the window's [stop()] the number of collected
    samples is the number of samples captured in that window alone,
    whatever the session held before, so two equal windows give equal
    counts; when every memory capture succeeds it is 2 plus the number
    of interval ticks.  After [reset()] the count is zero. *)
Theorem each_window_counts_its_own_samples :
  forall (s : t) (b : StartEnv) (ticks : list TickEnv) (e : StopEnv) (now : Z),
    running s = false ->
    let window := (first_sample b :: ticks ++ [final_sample e])%list in
    let s' := fst (run s (cycle b ticks e)) in
    samplesCollected (status now s') = JS.length (flat_map mem_appended window)
    /\ (forallb mem_ok window = true ->
        samplesCollected (status now s') = 2 + JS.length ticks)
    /\ (forall env, samplesCollected (status now (fst (reset env s'))) = 0).
Proof.
  intros s b ticks e now Hr window s'.
  destruct (cycle_memorySamples b ticks e s Hr) as (Hm & _).
  fold s' in Hm. fold window in Hm.
  cbn [status samplesCollected]. rewrite Hm. split; [reflexivity|]. split.
  - intros Hok. unfold JS.length.
    rewrite (flat_map_mem_appended_length _ Hok). subst window.
    cbn [List.length]. rewrite length_app. cbn [List.length]. lia.
  - intros env.
    destruct (reset_clears_state env s') as (-> & _). reflexivity.
Qed.

(** ** Pairing of the two sample sequences *)

Lemma cycle_same_lengths (b : StartEnv) (ticks : list TickEnv) (e : StopEnv)
  (s : t) :
  running s = false ->
  paired (first_sample b) = true ->
  forallb paired ticks = true ->
  paired (final_sample e) = true ->
  same_lengths (fst (run s (cycle b ticks e))).
Proof.
  intros Hr Hb Hticks He. rewrite run_cycle.
  apply stop_same_lengths; [exact He|].
  apply run_same_lengths.
  - clear -Hticks. induction ticks as [|env ticks IH]; [reflexivity|].
    cbn [forallb map] in *. apply andb_prop in Hticks as [H1 H2].
    change (op_paired (OpTick env)) with (paired env). rewrite H1. exact (IH H2).
  - unfold start. rewrite Hr.
    match goal with
    | |- context [_takeSample ?env ?s0] =>
        pose proof (takeSample_same_lengths env s0 Hb eq_refl) as Hk;
        destruct (_takeSample env s0) as [s1 calls]
    end.
    cbn [fst] in *. destruct (monitorEventLoop s1); exact Hk.
Qed.

Lemma captures_ok_paired (env : TickEnv) :
  captures_ok env = true -> paired env = true /\ mem_ok env = true.
Proof.
  unfold captures_ok, paired. destruct (mem_ok env), (cpu_ok env); auto.
Qed.

(** C4 (as the code has it). An operation whose sampling tick does not
    lose its CPU capture after a successful memory capture (both
    captures succeed, or the memory capture fails first) keeps the two
    sequences equally long; and after [start()] then [stop()], when the
    first and the final sample are captured and no interval tick loses
    its CPU capture, both lengths are equal and at least 2. *)
Theorem sequences_paired_unless_cpu_capture_fails :
  (forall (s : t) (op : Op),
      same_lengths s -> op_paired op = true ->
      same_lengths (fst (step s op)))
  /\ (forall (s : t) (b : StartEnv) (ticks : list TickEnv) (e : StopEnv),
         running s = false ->
         captures_ok (first_sample b) = true ->
         forallb paired ticks = true ->
         captures_ok (final_sample e) = true ->
         let s' := fst (run s (cycle b ticks e)) in
         JS.length (memorySamples s') = JS.length (cpuSamples s')
         /\ 2 <= JS.length (memorySamples s')).
Proof.
  split.
  - intros s op H Hp. apply step_same_lengths; assumption.
  - intros s b ticks e Hr Hb Hticks He. cbv zeta.
    destruct (captures_ok_paired _ Hb) as [Hpb Hmb].
    destruct (captures_ok_paired _ He) as [Hpe Hme].
    split; [apply cycle_same_lengths; assumption|].
    destruct (cycle_memorySamples b ticks e s Hr) as (Hm & _). rewrite Hm.
    unfold JS.length. cbn [flat_map].
    rewrite length_app, flat_map_app, length_app. cbn [flat_map].
    rewrite app_nil_r, !mem_appended_length, Hmb, Hme. lia.
Qed.

(** * Further properties of the code *)

(** ** The life cycle *)

Lemma start_running (b : StartEnv) (s : t) :
  running (fst (start b s)) = true.
Proof.
  unfold start. destruct (running s) eqn:Hr; [exact Hr|].
  match goal with
  | |- context [_takeSample ?e ?s0] =>
      pose proof (takeSample_running e s0) as H;
      destruct (_takeSample e s0) as [s1 calls]
  end.
  cbn [fst] in *. destruct (monitorEventLoop s1); exact H.
Qed.

(** X1. [status().running] follows the life cycle: it is true after
    [start()], false after [stop()] and after [reset()], and neither an
    interval tick nor a lag tick changes it. *)
Theorem status_running_follows_life_cycle :
  forall (s : t) (now : Z),
    (forall b, status_running (status now (fst (start b s))) = true)
    /\ (forall e, status_running (status now (fst (stop e s))) = false)
    /\ (forall e, status_running (status now (fst (reset e s))) = false)
    /\ (forall env, status_running (status now (fst (step s (OpTick env))))
                    = status_running (status now s))
    /\ (forall lag, status_running (status now (fst (step s (OpLagTick lag))))
                    = status_running (status now s)).
Proof.
  intros s now. cbn [status status_running].
  split; [|split; [|split; [|split]]].
  - intros b. apply start_running.
  - intros e. apply stop_not_running.
  - intros e. apply reset_clears_state.
  - intros env. cbn [step]. destruct (intervalHandle s); [|reflexivity].
    apply takeSample_running.
  - intros lag. reflexivity.
Qed.

(** X2. Redundant calls change nothing and take no sample: a [start()]
    right after a [start()], and a [stop()] right after a [stop()],
    return the session as it is and call no alert. *)
Theorem repeated_start_and_stop_are_noops :
  forall (s : t),
    (forall b b', start b' (fst (start b s)) = (fst (start b s), []))
    /\ (forall e e', stop e' (fst (stop e s)) = (fst (stop e s), [])).
Proof.
  intros s. split.
  - intros b b'. unfold start at 1. rewrite start_running. reflexivity.
  - intros e e'. unfold stop at 1. rewrite stop_not_running. reflexivity.
Qed.

Lemma constructor_initial (options : Options.t) (collected : option SystemInfo)
  (d : t) :
  constructor options collected = Ok d ->
  running d = false /\ intervalHandle d = None
  /\ eventLoopMonitor d = EventLoopMonitor.new
  /\ memorySamples d = [] /\ cpuSamples d = []
  /\ alertTriggerCount d = 0 /\ timeOverTarget d = 0
  /\ lastTargetCheck d = None /\ startTime d = None /\ endTime d = None
  /\ monitorEventLoop d
     = match Options.monitorEventLoop options with
       | Some false => false
       | _ => true
       end.
Proof.
  unfold constructor. destruct (Options.name options) as [n|]; [|discriminate].
  destruct (negb (JS.truthy_string n)); [discriminate|].
  intros H. injection H as <-. repeat split.
Qed.

Lemma takeSample_timers (env : TickEnv) (s : t) :
  intervalHandle (fst (_takeSample env s)) = intervalHandle s
  /\ eventLoopMonitor (fst (_takeSample env s)) = eventLoopMonitor s
  /\ running (fst (_takeSample env s)) = running s
  /\ monitorEventLoop (fst (_takeSample env s)) = monitorEventLoop s.
Proof. open_tick; repeat split. Qed.

Lemma monitor_stop_disarmed (m : EventLoopMonitor.t) :
  EventLoopMonitor.checkInterval (EventLoopMonitor.stop m) = None.
Proof.
  unfold EventLoopMonitor.stop.
  destruct (EventLoopMonitor.checkInterval m) eqn:H; [reflexivity | exact H].
Qed.

Lemma monitor_tick_armed (now : float) (m : EventLoopMonitor.t) :
  armed (EventLoopMonitor.checkInterval (EventLoopMonitor.tick now m))
  = armed (EventLoopMonitor.checkInterval m).
Proof.
  unfold EventLoopMonitor.tick.
  destruct (EventLoopMonitor.checkInterval m) eqn:H; cbn; rewrite ?H; reflexivity.
Qed.

Lemma stop_timers (e : StopEnv) (s : t) :
  timers_match s -> timers_match (fst (stop e s)).
Proof.
  intros [Hi Hm]. unfold stop. destruct (running s) eqn:Hr; cbn [negb fst].
  - match goal with
    | |- context [_takeSample ?env ?s0] =>
        pose proof (takeSample_timers env s0) as (_ & _ & Hr' & _);
        destruct (_takeSample env s0) as [s1 calls]
    end.
    cbn [fst] in *. cbn in Hr'. unfold timers_match.
    destruct (intervalHandle s1) eqn:Hh; cbn -[EventLoopMonitor.stop];
      rewrite ?Hh, Hr', monitor_stop_disarmed; split; reflexivity.
  - unfold timers_match. rewrite Hr. split; assumption.
Qed.

Lemma step_timers (s : t) (op : Op) :
  timers_match s -> timers_match (fst (step s op)).
Proof.
  intros H. destruct op; cbn [step].
  - (* start *)
    unfold start. destruct (running s) eqn:Hr; [exact H|].
    destruct H as [Hi Hm]. rewrite Hr in Hm. cbn [andb] in Hm.
    match goal with
    | |- context [_takeSample ?env ?s0] =>
        pose proof (takeSample_timers env s0) as (Hi' & Hm' & Hr' & Hc');
        destruct (_takeSample env s0) as [s1 calls]
    end.
    cbn [fst] in *. cbn in Hi', Hm', Hr', Hc'. unfold timers_match.
    destruct (monitorEventLoop s1) eqn:Hmon;
      cbn -[EventLoopMonitor.start]; rewrite Hr', ?Hmon, ?Hm'.
    + unfold EventLoopMonitor.start.
      destruct (EventLoopMonitor.checkInterval (eventLoopMonitor s));
        [discriminate | split; reflexivity].
    + split; [reflexivity | exact Hm].
  - apply stop_timers, H.
  - rewrite report_state. destruct (running s) eqn:Hr;
      [apply stop_timers, H | exact H].
  - unfold reset. pose proof (stop_timers env s H) as Hs.
    destruct (stop env s) as [s1 calls]. exact Hs.
  - destruct (intervalHandle s); [|exact H].
    pose proof (takeSample_timers env s) as (Hi' & Hm' & Hr' & Hc').
    unfold timers_match. rewrite Hi', Hm', Hr', Hc'. exact H.
  - destruct H as [Hi Hm]. unfold timers_match. cbn -[EventLoopMonitor.tick].
    rewrite monitor_tick_armed. split; assumption.
Qed.

Lemma run_timers (ops : list Op) (s : t) :
  timers_match s -> timers_match (fst (run s ops)).
Proof.
  revert s. induction ops as [|op ops IH]; intros s H; [exact H|].
  rewrite run_cons. cbn [fst]. apply IH, step_timers, H.
Qed.

Lemma set_eventLoopMonitor_same (s : t) :
  set_eventLoopMonitor (eventLoopMonitor s) s = s.
Proof. destruct s; reflexivity. Qed.

(** X3. In every state a session can reach from its construction, the
    sampling timer is armed exactly while the session is running, and
    the lag monitor's timer exactly while it is running with event-loop
    monitoring enabled.  Hence once stopped, no interval tick and no lag
    tick can change the session any more. *)
Theorem timers_armed_exactly_while_running :
  forall (options : Options.t) (collected : option SystemInfo) (d : t)
         (ops : list Op),
    constructor options collected = Ok d ->
    let s := fst (run d ops) in
    armed (intervalHandle s) = running s
    /\ armed (EventLoopMonitor.checkInterval (eventLoopMonitor s))
       = running s && monitorEventLoop s
    /\ (running s = false ->
        forall env lag,
          step s (OpTick env) = (s, []) /\ step s (OpLagTick lag) = (s, [])).
Proof.
  intros options collected d ops Hd s.
  assert (H : timers_match s).
  { apply run_timers. destruct (constructor_initial _ _ _ Hd) as (Hr & Hi & Hm & _).
    unfold timers_match. rewrite Hr, Hi, Hm. split; reflexivity. }
  destruct H as [Hi Hm]. split; [exact Hi|]. split; [exact Hm|].
  intros Hr env lag. rewrite Hr in Hi, Hm. cbn [andb] in Hm. cbn [step]. split.
  - destruct (intervalHandle s); [discriminate | reflexivity].
  - unfold EventLoopMonitor.tick.
    destruct (EventLoopMonitor.checkInterval (eventLoopMonitor s));
      [discriminate|].
    rewrite set_eventLoopMonitor_same. reflexivity.
Qed.

(** X4. [report()] is [stop()] followed by a report of the stopped
    session: the state and the alerts are those of [stop()], the report
    is the one the stopped session gives.  On a session that is already
    stopped it changes nothing. *)
Theorem report_stops_then_reads :
  forall (env : ReportEnv) (s : t),
    fst (report env s) = stop (report_stop env) s
    /\ snd (report env s) = snd (report env (fst (stop (report_stop env) s)))
    /\ running (fst (fst (report env s))) = false
    /\ (running s = false -> fst (report env s) = (s, [])).
Proof.
  intros env s.
  assert (Hfst : fst (report env s) = stop (report_stop env) s).
  { rewrite report_state. unfold stop. destruct (running s); reflexivity. }
  split; [exact Hfst|]. split; [|split].
  - pose proof (stop_not_running (report_stop env) s) as Hr.
    unfold report at 2. rewrite Hr.
    unfold report. destruct (running s) eqn:Hrs.
    + destruct (stop (report_stop env) s) as [s1 calls]. reflexivity.
    + unfold stop. rewrite Hrs. reflexivity.
  - rewrite Hfst. apply stop_not_running.
  - intros Hr. rewrite Hfst. unfold stop. rewrite Hr. reflexivity.
Qed.

(** ** Reports *)

(** X5. Once a session has been started and stopped (both timestamps
    set and non-zero), its report no longer depends on when it is asked
    for: any two calls of [report()] return the same report and leave
    the session untouched. *)
Theorem report_of_finished_session_is_stable :
  forall (s : t) (b e : Z) (env env' : ReportEnv),
    running s = false ->
    startTime s = Some b -> endTime s = Some e -> b <> 0 -> e <> 0 ->
    report env s = report env' s
    /\ fst (report env s) = (s, []).
Proof.
  intros s b e env env' Hr Hs He Hb He0.
  unfold report. rewrite Hr, Hs, He. unfold JS.truthy.
  destruct (Z.eqb_spec e 0); [contradiction|].
  destruct (Z.eqb_spec b 0); [contradiction|].
  split; reflexivity.
Qed.

(** X6. The report of a session that was never started: no samples, no
    alerts, all memory and CPU statistics zero, both timestamps null,
    and a duration that is the difference of two successive clock
    readings taken by [report()] itself, first the one standing in for
    the end, then the one standing in for the start; under a clock that
    does not go back it is therefore never positive, and the time under
    target is [0]. *)
Theorem report_before_any_start :
  forall (options : Options.t) (collected : option SystemInfo) (d : t)
         (env : ReportEnv),
    constructor options collected = Ok d ->
    let r := snd (report env d) in
    fst (report env d) = (d, [])
    /\ numSamples (analysis r) = 0
    /\ numOfAlertTriggers (analysis r) = 0
    /\ analysis_timeOverTarget (analysis r) = 0
    /\ memory r = zero_stats /\ memory_heap r = zero_stats
    /\ memory_rss r = zero_stats /\ cpu r = zero_stats
    /\ eventLoop_lag r = zero_lag
    /\ clock_startTime (clock r) = None /\ clock_endTime (clock r) = None
    /\ duration (clock r) = now_end_fallback env - now_start_fallback env
    /\ (now_end_fallback env <= now_start_fallback env ->
        duration (clock r) <= 0 /\ timeUnderTarget (analysis r) = 0).
Proof.
  intros options collected d env Hd.
  destruct (constructor_initial _ _ _ Hd)
    as (Hr & _ & Hm & Hmem & Hcpu & Ha & Ho & _ & Hs & He & _).
  cbv zeta. unfold report. rewrite Hr, Hs, He, Hmem, Hcpu, Ha, Ho, Hm.
  cbn. repeat split; try reflexivity; lia.
Qed.

(** The top-level memory statistics of a report are its heap
    statistics: a memory sample's [total] is its [heapUsed]. *)
Theorem report_memory_is_heap :
  forall (env : ReportEnv) (s : t),
    memory (snd (report env s)) = memory_heap (snd (report env s)).
Proof.
  intros env s. unfold report.
  destruct (running s); [destruct (stop (report_stop env) s)|]; reflexivity.
Qed.

(** ** Threshold alerts *)

(** The alerts of one tick: none, or one well-formed payload counted
    once. *)
Lemma takeSample_alerts (env : TickEnv) (s : t) :
  Forall (payload_ok s) (snd (_takeSample env s))
  /\ alertTriggerCount (fst (_takeSample env s))
     = alertTriggerCount s + JS.length (snd (_takeSample env s)).
Proof.
  unfold _takeSample.
  destruct (MemorySnapshot.new _ _) as [m|]; [|cbn; split; [constructor | lia]].
  destruct (CPUSnapshot.new _ _ _) as [c|]; [|cbn; split; [constructor | lia]].
  unfold check_threshold. cbn [threshold set_cpuSamples set_memorySamples].
  destruct (threshold s) as [th|] eqn:Hth.
  - destruct (JS.truthy th && (MemorySnapshot.total m >? th)) eqn:Hover;
      cbn [fst snd].
    + apply andb_prop in Hover as [_ Hgt]. apply Z.gtb_lt in Hgt. split.
      * constructor; [|constructor].
        unfold payload_ok. cbn. rewrite Hth. repeat split. exact Hgt.
      * unfold track_target. repeat (break_match; cbn); lia.
    + split; [constructor|].
      unfold track_target. repeat (break_match; cbn); lia.
  - cbn [fst snd]. split; [constructor|].
    unfold track_target. repeat (break_match; cbn); lia.
Qed.

Lemma payload_ok_same_config (s s' : t) (a : AlertInfo) :
  same_config s s' -> payload_ok s' a -> payload_ok s a.
Proof.
  intros (Hn & _ & Hth & _) (H1 & H2 & H3 & H4). unfold payload_ok.
  rewrite <- Hn, <- Hth. auto.
Qed.

Lemma stop_alerts (e : StopEnv) (s : t) :
  Forall (payload_ok s) (snd (stop e s))
  /\ alertTriggerCount (fst (stop e s))
     = alertTriggerCount s + JS.length (snd (stop e s)).
Proof.
  unfold stop. destruct (running s); cbn [negb fst snd];
    [|split; [constructor | cbn; lia]].
  match goal with
  | |- context [_takeSample ?env ?s0] =>
      pose proof (takeSample_alerts env s0) as [Hp Hc];
      destruct (_takeSample env s0) as [s1 calls]
  end.
  cbn [fst snd] in *. split.
  - destruct (intervalHandle s1); exact Hp.
  - destruct (intervalHandle s1); exact Hc.
Qed.

Lemma step_alerts (s : t) (op : Op) :
  Forall (payload_ok s) (snd (step s op)).
Proof.
  destruct op; cbn [step].
  - unfold start. destruct (running s); [constructor|].
    match goal with
    | |- context [_takeSample ?env ?s0] =>
        pose proof (takeSample_alerts env s0) as [Hp _];
        destruct (_takeSample env s0) as [s1 calls]
    end.
    exact Hp.
  - apply stop_alerts.
  - rewrite report_state. destruct (running s); [apply stop_alerts | constructor].
  - unfold reset. pose proof (stop_alerts env s) as [Hp _].
    destruct (stop env s) as [s1 calls]. exact Hp.
  - destruct (intervalHandle s); [apply takeSample_alerts | constructor].
  - constructor.
Qed.

(** X7. Every payload the alert callback ever receives carries the type
    tag [threshold_exceeded], the session's name, the configured
    threshold and a current heap size strictly above it, each with its
    [formatBytes] rendering. *)
Theorem alert_payloads_are_well_formed :
  forall (s : t) (ops : list Op),
    Forall (payload_ok s) (snd (run s ops)).
Proof.
  intros s ops. revert s. induction ops as [|op ops IH]; intros s;
    [constructor|].
  rewrite run_cons. cbn [snd]. apply Forall_app. split.
  - apply step_alerts.
  - eapply Forall_impl; [|apply IH].
    intros a. apply payload_ok_same_config, step_same_config.
Qed.

Lemma ticks_alert_count (ticks : list TickEnv) (s : t) :
  intervalHandle s <> None ->
  alertTriggerCount (fst (run s (map OpTick ticks)))
  = alertTriggerCount s + JS.length (snd (run s (map OpTick ticks))).
Proof.
  revert s. induction ticks as [|env ticks IH]; intros s Hh; [cbn; lia|].
  cbn [map]. rewrite run_cons. cbn [fst snd step].
  destruct (intervalHandle s) as [h|] eqn:Hs; [|contradiction].
  pose proof (takeSample_alerts env s) as [_ Hc].
  pose proof (takeSample_frame env s) as (_ & _ & _ & Hi & _).
  rewrite IH by (rewrite Hi, Hs; discriminate).
  unfold JS.length in *. rewrite length_app. lia.
Qed.

(** X8. Over a measurement window the alert counter is the number of
    times the alert callback was called in that window, and this is the
    [numOfAlertTriggers] of the report that follows. *)
Theorem alert_count_is_number_of_callbacks :
  forall (s : t) (b : StartEnv) (ticks : list TickEnv) (e : StopEnv)
         (env : ReportEnv),
    running s = false ->
    let result := run s (cycle b ticks e) in
    alertTriggerCount (fst result) = JS.length (snd result)
    /\ numOfAlertTriggers (analysis (snd (report env (fst result))))
       = JS.length (snd result).
Proof.
  intros s b ticks e env Hr. cbv zeta.
  assert (Hcount : alertTriggerCount (fst (run s (cycle b ticks e)))
                   = JS.length (snd (run s (cycle b ticks e)))).
  { unfold cycle. rewrite run_cons, run_app. cbn [fst snd step].
    rewrite run_cons. cbn [fst snd step run]. rewrite app_nil_r.
    destruct (start_memorySamples b s Hr) as (_ & _ & Hi & _).
    pose proof (ticks_alert_count ticks _ Hi) as Hticks.
    pose proof (stop_alerts e (fst (run (fst (start b s)) (map OpTick ticks))))
      as [_ Hstop].
    assert (Hstart : alertTriggerCount (fst (start b s))
                     = JS.length (snd (start b s))).
    { unfold start. rewrite Hr.
      match goal with
      | |- context [_takeSample ?env0 ?s0] =>
          pose proof (takeSample_alerts env0 s0) as [_ Hc];
          destruct (_takeSample env0 s0) as [s1 calls]
      end.
      cbn [fst snd] in *. cbn in Hc. destruct (monitorEventLoop s1); cbn; lia. }
    unfold JS.length in *. rewrite !length_app. lia. }
  split; [exact Hcount|].
  destruct (cycle_memorySamples b ticks e s Hr) as (_ & Hr' & _).
  unfold report. rewrite Hr'. cbn. exact Hcount.
Qed.

(** X9. A tick alerts exactly when it should: with a threshold
    configured, a tick whose two captures succeed calls the alert
    callback once if the captured heap is above the threshold and not at
    all otherwise; a tick that loses a capture never alerts. *)
Theorem tick_alerts_iff_heap_above_threshold :
  forall (env : TickEnv) (s : t),
    (captures_ok env = false -> snd (_takeSample env s) = [])
    /\ (forall mu th,
          memoryUsage env = Some mu -> cpu_ok env = true ->
          threshold s = Some th -> th <> 0 ->
          if mu_heapUsed mu >? th then
            exists a, snd (_takeSample env s) = [a]
                      /\ current (alert_memory a) = mu_heapUsed mu
                      /\ alert_timestamp a = now_alert env
          else snd (_takeSample env s) = []).
Proof.
  intros env s. split.
  - unfold captures_ok, mem_ok, cpu_ok, _takeSample, MemorySnapshot.new,
      CPUSnapshot.new.
    destruct (memoryUsage env); [|reflexivity].
    destruct (cpuUsage env); [discriminate | reflexivity].
  - intros mu th Hmu Hcpu Hth Hnz.
    unfold cpu_ok in Hcpu. unfold _takeSample, MemorySnapshot.new, CPUSnapshot.new.
    rewrite Hmu. destruct (cpuUsage env); [|discriminate].
    unfold check_threshold. cbn [threshold set_cpuSamples set_memorySamples].
    rewrite Hth. unfold JS.truthy. destruct (Z.eqb_spec th 0); [contradiction|].
    cbn [negb andb].
    change (MemorySnapshot.total _) with (mu_heapUsed mu).
    destruct (mu_heapUsed mu >? th); cbn [snd].
    + eexists. repeat split.
    + reflexivity.
Qed.

(** ** Statistics and [NaN] *)

Lemma SFcompare_refl (x : spec_float) :
  x <> S754_nan -> SFcompare x x = Some Eq.
Proof.
  destruct x as [s|s| |s m e]; cbn; intros H.
  - reflexivity.
  - destruct s; reflexivity.
  - contradiction.
  - rewrite Z.compare_refl, Pos.compare_cont_refl. destruct s; reflexivity.
Qed.

(** [is_nan], read on the specification of the value. *)
Lemma is_nan_spec (x : float) :
  PrimFloat.is_nan x = true <-> Prim2SF x = S754_nan.
Proof.
  unfold PrimFloat.is_nan. rewrite eqb_spec. unfold SFeqb. split.
  - intros H. destruct (Prim2SF x) as [s|s| |s m e] eqn:Hx; try reflexivity;
      rewrite SFcompare_refl in H by discriminate; discriminate.
  - intros ->. reflexivity.
Qed.

Lemma max2_nan_r (a b : float) :
  PrimFloat.is_nan b = true -> JS.max2 a b = PrimFloat.nan.
Proof. intros H. unfold JS.max2. rewrite H, orb_true_r. reflexivity. Qed.

Lemma min2_nan_r (a b : float) :
  PrimFloat.is_nan b = true -> JS.min2 a b = PrimFloat.nan.
Proof. intros H. unfold JS.min2. rewrite H, orb_true_r. reflexivity. Qed.

Lemma max2_nan_l (b : float) : JS.max2 PrimFloat.nan b = PrimFloat.nan.
Proof. reflexivity. Qed.

Lemma min2_nan_l (b : float) : JS.min2 PrimFloat.nan b = PrimFloat.nan.
Proof. reflexivity. Qed.

Lemma add_nan_r (a b : float) :
  PrimFloat.is_nan b = true -> PrimFloat.is_nan (PrimFloat.add a b) = true.
Proof.
  rewrite !is_nan_spec, add_spec. intros ->.
  destruct (Prim2SF a) as [s|s| |s m e]; reflexivity.
Qed.

Lemma add_nan_l (a b : float) :
  PrimFloat.is_nan a = true -> PrimFloat.is_nan (PrimFloat.add a b) = true.
Proof.
  rewrite !is_nan_spec, add_spec. intros ->. reflexivity.
Qed.

Lemma div_nan_l (a b : float) :
  PrimFloat.is_nan a = true -> PrimFloat.is_nan (PrimFloat.div a b) = true.
Proof.
  rewrite !is_nan_spec, div_spec. intros ->. reflexivity.
Qed.

(** A fold that absorbs [NaN] on both sides returns [NaN] as soon as one
    element is [NaN]. *)
Lemma fold_left_nan (f : float -> float -> float) (values : list float)
  (acc x : float) :
  (forall a b, PrimFloat.is_nan a = true -> PrimFloat.is_nan (f a b) = true) ->
  (forall a b, PrimFloat.is_nan b = true -> PrimFloat.is_nan (f a b) = true) ->
  In x values -> PrimFloat.is_nan x = true ->
  PrimFloat.is_nan (fold_left f values acc) = true.
Proof.
  intros Hl Hr. revert acc.
  assert (Hkeep : forall l a, PrimFloat.is_nan a = true ->
                    PrimFloat.is_nan (fold_left f l a) = true).
  { induction l as [|y l IH]; intros a Ha; [exact Ha|].
    cbn [fold_left]. apply IH, Hl, Ha. }
  induction values as [|y values IH]; intros acc Hin Hx; [contradiction|].
  cbn [fold_left]. destruct Hin as [-> | Hin].
  - apply Hkeep, Hr, Hx.
  - apply IH; assumption.
Qed.

(** X10. One [NaN] value makes the three statistics [NaN]: if the
    accessor returns [NaN] on any sample, [_calculateStats] returns
    [NaN] for the peak, the average and the low alike. *)
Theorem calculateStats_propagates_nan :
  forall (A : Type) (samples : list A) (accessor : A -> float) (x : A),
    In x samples ->
    PrimFloat.is_nan (accessor x) = true ->
    let stats := _calculateStats samples accessor in
    PrimFloat.is_nan (peak stats) = true
    /\ PrimFloat.is_nan (average stats) = true
    /\ PrimFloat.is_nan (low stats) = true.
Proof.
  intros A samples accessor x Hin Hnan. cbv zeta. unfold _calculateStats.
  destruct samples as [|y samples]; [contradiction|].
  set (values := map accessor (y :: samples)).
  assert (Hv : In (accessor x) values) by (apply in_map; exact Hin).
  unfold JS.length at 1. cbn [List.length Z.of_nat Z.eqb peak average low].
  split; [|split].
  - unfold JS.Math_max. apply (fold_left_nan JS.max2 values _ (accessor x));
      try assumption.
    + intros a b Ha. apply is_nan_spec in Ha.
      unfold JS.max2. replace (PrimFloat.is_nan a) with true; [reflexivity|].
      symmetry. apply is_nan_spec, Ha.
    + intros a b Hb. rewrite max2_nan_r by exact Hb. reflexivity.
  - apply div_nan_l. unfold JS.sum.
    apply (fold_left_nan PrimFloat.add values _ (accessor x)); try assumption.
    + apply add_nan_l.
    + apply add_nan_r.
  - unfold JS.Math_min. apply (fold_left_nan JS.min2 values _ (accessor x));
      try assumption.
    + intros a b Ha. unfold JS.min2. rewrite Ha. reflexivity.
    + intros a b Hb. rewrite min2_nan_r by exact Hb. reflexivity.
Qed.

(** ** The lag monitor *)

(** [Math.max(0, x)] is never below zero, whatever [x] is. *)
Lemma max2_zero_not_negative (x : float) :
  lag_not_negative (JS.max2 PrimFloat.zero x).
Proof.
  unfold lag_not_negative, JS.max2.
  change (PrimFloat.is_nan PrimFloat.zero) with false. cbn [orb].
  destruct (PrimFloat.is_nan x) eqn:Hnan; [reflexivity|].
  destruct (PrimFloat.ltb PrimFloat.zero x) eqn:H0x.
  - rewrite ltb_spec in *. unfold SFltb in *.
    replace (Prim2SF PrimFloat.zero) with (S754_zero false) in *
      by (vm_compute; reflexivity).
    destruct (Prim2SF x) as [s|s| |s m e]; cbn in *; try discriminate;
      destruct s; try discriminate; reflexivity.
  - destruct (PrimFloat.ltb x PrimFloat.zero) eqn:Hx0; [reflexivity|].
    change (PrimFloat.get_sign PrimFloat.zero) with false. cbn iota.
    reflexivity.
Qed.

Lemma monitor_tick_samples (now : float) (m : EventLoopMonitor.t) :
  EventLoopMonitor.samples (EventLoopMonitor.tick now m) = EventLoopMonitor.samples m
  \/ exists x,
       EventLoopMonitor.samples (EventLoopMonitor.tick now m)
       = (EventLoopMonitor.samples m ++ [JS.max2 PrimFloat.zero x])%list.
Proof.
  unfold EventLoopMonitor.tick.
  destruct (EventLoopMonitor.checkInterval m) as [timer|]; [|left; reflexivity].
  right. eexists. reflexivity.
Qed.

Lemma monitor_start_samples (interval now : float) (m : EventLoopMonitor.t) :
  EventLoopMonitor.samples (EventLoopMonitor.start interval now m)
  = EventLoopMonitor.samples m.
Proof.
  unfold EventLoopMonitor.start.
  destruct (EventLoopMonitor.checkInterval m); reflexivity.
Qed.

Lemma monitor_stop_samples (m : EventLoopMonitor.t) :
  EventLoopMonitor.samples (EventLoopMonitor.stop m) = EventLoopMonitor.samples m.
Proof.
  unfold EventLoopMonitor.stop.
  destruct (EventLoopMonitor.checkInterval m); reflexivity.
Qed.

Lemma start_lag_samples (b : StartEnv) (s : t) :
  EventLoopMonitor.samples (eventLoopMonitor (fst (start b s)))
  = EventLoopMonitor.samples (eventLoopMonitor s).
Proof.
  unfold start. destruct (running s); [reflexivity|].
  match goal with
  | |- context [_takeSample ?env ?s0] =>
      pose proof (takeSample_timers env s0) as (_ & Hm & _);
      destruct (_takeSample env s0) as [s1 calls]
  end.
  cbn [fst] in *. cbn in Hm.
  destruct (monitorEventLoop s1); cbn -[EventLoopMonitor.start];
    rewrite ?monitor_start_samples, Hm; reflexivity.
Qed.

Lemma stop_lag_samples (e : StopEnv) (s : t) :
  EventLoopMonitor.samples (eventLoopMonitor (fst (stop e s)))
  = EventLoopMonitor.samples (eventLoopMonitor s).
Proof.
  unfold stop. destruct (running s); cbn [negb fst]; [|reflexivity].
  match goal with
  | |- context [_takeSample ?env ?s0] =>
      pose proof (takeSample_timers env s0) as (_ & Hm & _);
      destruct (_takeSample env s0) as [s1 calls]
  end.
  cbn [fst] in *. cbn in Hm.
  destruct (intervalHandle s1); cbn -[EventLoopMonitor.stop];
    rewrite monitor_stop_samples, Hm; reflexivity.
Qed.

(** What one operation does to the lag samples: nothing, or it appends
    one lag, which is not negative. *)
Lemma step_lag_samples (s : t) (op : Op) :
  exists added,
    EventLoopMonitor.samples (eventLoopMonitor (fst (step s op)))
    = (EventLoopMonitor.samples (eventLoopMonitor s) ++ added)%list
    /\ Forall lag_not_negative added.
Proof.
  assert (Hsame : forall s',
    EventLoopMonitor.samples (eventLoopMonitor s')
    = EventLoopMonitor.samples (eventLoopMonitor s) ->
    exists added,
      EventLoopMonitor.samples (eventLoopMonitor s')
      = (EventLoopMonitor.samples (eventLoopMonitor s) ++ added)%list
      /\ Forall lag_not_negative added).
  { intros s' H. exists []. rewrite app_nil_r. split; [exact H | constructor]. }
  destruct op; cbn [step].
  - apply Hsame, start_lag_samples.
  - apply Hsame, stop_lag_samples.
  - apply Hsame. rewrite report_state.
    destruct (running s); [apply stop_lag_samples | reflexivity].
  - apply Hsame, reset_keeps_lag_samples.
  - apply Hsame. destruct (intervalHandle s); [|reflexivity].
    destruct (takeSample_timers env s) as (_ & -> & _). reflexivity.
  - cbn -[EventLoopMonitor.tick].
    destruct (monitor_tick_samples now (eventLoopMonitor s)) as [H | [x H]].
    + exists []. rewrite app_nil_r. split; [exact H | constructor].
    + eexists. split; [exact H|].
      constructor; [apply max2_zero_not_negative | constructor].
Qed.

Lemma run_lag_samples (ops : list Op) (s : t) :
  exists added,
    EventLoopMonitor.samples (eventLoopMonitor (fst (run s ops)))
    = (EventLoopMonitor.samples (eventLoopMonitor s) ++ added)%list
    /\ Forall lag_not_negative added.
Proof.
  revert s. induction ops as [|op ops IH]; intros s.
  - exists []. rewrite app_nil_r. split; [reflexivity | constructor].
  - rewrite run_cons. cbn [fst].
    destruct (step_lag_samples s op) as (a1 & H1 & F1).
    destruct (IH (fst (step s op))) as (a2 & H2 & F2).
    exists (a1 ++ a2)%list. rewrite H2, H1, app_assoc.
    split; [reflexivity | apply Forall_app; split; assumption].
Qed.

(** X11. Lag samples are never discarded: whatever happens to a session
    ([stop()], [reset()], a new [start()], a report), the lag samples it
    held before are still there, in order, followed by those recorded
    since; so the event-loop statistics of a report cover every lag
    recorded since the session was constructed. *)
Theorem lag_samples_only_grow :
  forall (s : t) (ops : list Op),
    exists added,
      EventLoopMonitor.samples (eventLoopMonitor (fst (run s ops)))
      = (EventLoopMonitor.samples (eventLoopMonitor s) ++ added)%list.
Proof.
  intros s ops. destruct (run_lag_samples ops s) as (added & H & _).
  exists added. exact H.
Qed.

(** X12. No recorded lag is ever below zero, whatever
    [performance.now()] returns (a timer firing early, a clock stepping
    back): the monitor of any session reached from its construction
    holds non-negative lags only. *)
Theorem recorded_lags_are_not_negative :
  forall (options : Options.t) (collected : option SystemInfo) (d : t)
         (ops : list Op),
    constructor options collected = Ok d ->
    Forall lag_not_negative
      (EventLoopMonitor.samples (eventLoopMonitor (fst (run d ops)))).
Proof.
  intros options collected d ops Hd.
  destruct (constructor_initial _ _ _ Hd) as (_ & _ & Hm & _).
  destruct (run_lag_samples ops d) as (added & H & F).
  rewrite H, Hm. exact F.
Qed.

(** X13. With [monitorEventLoop: false] the monitor is never started:
    no lag is ever recorded, and every report has an event-loop block
    whose average, max and min are zero. *)
Theorem disabled_monitor_reports_zero_lag :
  forall (options : Options.t) (collected : option SystemInfo) (d : t)
         (ops : list Op) (env : ReportEnv),
    constructor options collected = Ok d ->
    Options.monitorEventLoop options = Some false ->
    let s := fst (run d ops) in
    EventLoopMonitor.samples (eventLoopMonitor s) = []
    /\ eventLoop_lag (snd (report env s)) = zero_lag.
Proof.
  intros options collected d ops env Hd Hoff s.
  destruct (constructor_initial _ _ _ Hd)
    as (Hr & Hi & Hm & _ & _ & _ & _ & _ & _ & _ & Hmon).
  rewrite Hoff in Hmon.
  assert (Hs : EventLoopMonitor.samples (eventLoopMonitor s) = []).
  { assert (Ht : timers_match s).
    { apply run_timers. unfold timers_match. rewrite Hr, Hi, Hm.
      split; reflexivity. }
    assert (Hinv : forall ops0 s0,
      monitorEventLoop s0 = false -> timers_match s0 ->
      EventLoopMonitor.samples (eventLoopMonitor (fst (run s0 ops0)))
      = EventLoopMonitor.samples (eventLoopMonitor s0)).
    { induction ops0 as [|op ops0 IH]; intros s0 Hoff0 Ht0; [reflexivity|].
      rewrite run_cons. cbn [fst].
      pose proof (step_same_config s0 op) as (_ & _ & _ & _ & _ & Hmon' & _).
      rewrite IH; [|rewrite Hmon'; exact Hoff0 | apply step_timers, Ht0].
      destruct Ht0 as [_ Harm]. rewrite Hoff0, andb_false_r in Harm.
      destruct op; cbn [step].
      - apply start_lag_samples.
      - apply stop_lag_samples.
      - rewrite report_state.
        destruct (running s0); [apply stop_lag_samples | reflexivity].
      - apply reset_keeps_lag_samples.
      - destruct (intervalHandle s0); [|reflexivity].
        destruct (takeSample_timers env0 s0) as (_ & -> & _). reflexivity.
      - cbn -[EventLoopMonitor.tick]. unfold EventLoopMonitor.tick.
        destruct (EventLoopMonitor.checkInterval (eventLoopMonitor s0));
          [discriminate | reflexivity]. }
    subst s. rewrite Hinv.
    - rewrite Hm. reflexivity.
    - exact Hmon.
    - unfold timers_match. rewrite Hr, Hi, Hm. split; reflexivity. }
  split; [exact Hs|].
  unfold report.
  destruct (running s).
  - pose proof (stop_lag_samples (report_stop env) s) as Hl.
    destruct (stop (report_stop env) s) as [s1 calls]. cbn [fst] in Hl.
    cbn [snd eventLoop_lag]. unfold EventLoopMonitor.getStats.
    rewrite Hl, Hs. reflexivity.
  - cbn [snd eventLoop_lag]. unfold EventLoopMonitor.getStats.
    rewrite Hs. reflexivity.
Qed.

(** ** Formatters, in general *)

(** X14. [formatDuration] drops everything below a second once the
    duration reaches one second: from 1000 ms on, the text is that of
    the duration rounded down to whole seconds. *)
Theorem formatDuration_truncates_to_seconds :
  forall (ms : Z),
    1000 <= ms ->
    formatDuration ms = formatDuration (ms / 1000 * 1000).
Proof.
  intros ms H. unfold formatDuration.
  rewrite Z.div_mul by lia.
  assert (Hs : 0 < ms / 1000) by (apply Z.div_str_pos; lia).
  destruct (ms / 1000 / 60 / 60 / 24 >? 0); [reflexivity|].
  destruct (ms / 1000 / 60 / 60 >? 0); [reflexivity|].
  destruct (ms / 1000 / 60 >? 0); [reflexivity|].
  destruct (Z.gtb_spec (ms / 1000) 0); [reflexivity | lia].
Qed.

(** X15. A negative duration is printed as its raw millisecond count:
    every floored quotient is negative, so no unit is selected. *)
Theorem formatDuration_negative_is_raw :
  forall (ms : Z),
    ms < 0 -> formatDuration ms = JS.show ms ++ "ms".
Proof.
  intros ms H. unfold formatDuration.
  assert (H1 : ms / 1000 < 0) by (apply Z.div_lt_upper_bound; lia).
  assert (H2 : ms / 1000 / 60 < 0) by (apply Z.div_lt_upper_bound; lia).
  assert (H3 : ms / 1000 / 60 / 60 < 0) by (apply Z.div_lt_upper_bound; lia).
  assert (H4 : ms / 1000 / 60 / 60 / 24 < 0) by (apply Z.div_lt_upper_bound; lia).
  destruct (Z.gtb_spec (ms / 1000 / 60 / 60 / 24) 0); [lia|].
  destruct (Z.gtb_spec (ms / 1000 / 60 / 60) 0); [lia|].
  destruct (Z.gtb_spec (ms / 1000 / 60) 0); [lia|].
  destruct (Z.gtb_spec (ms / 1000) 0); [lia|]. reflexivity.
Qed.

(** X16. Below 1024 a byte count is printed as itself with two zero
    decimals and the unit [B]. *)
Theorem formatBytes_below_one_kilobyte :
  forall (bytes : Z),
    0 < bytes < 1024 -> formatBytes bytes = JS.show bytes ++ ".00 B".
Proof.
  intros bytes H. rewrite formatBytes_positive by lia. cbv zeta.
  rewrite (log_index_small bytes H). unfold JS.toFixed2. change (1024 ^ 0) with 1.
  replace ((200 * bytes + 1) / (2 * 1)) with (100 * bytes)
    by (apply Z.div_unique with (r := 1); lia).
  replace (100 * bytes / 100) with bytes
    by (apply Z.div_unique with (r := 0); lia).
  replace ((100 * bytes) mod 100) with 0
    by (apply Z.mod_unique with (q := bytes); lia).
  change (JS.show bytes ++ "." ++ (if 0 <? 10 then "0" else EmptyString)
            ++ JS.show 0)
    with (JS.show bytes ++ ".00").
  rewrite string_append_assoc. reflexivity.
Qed.

(** ** Target accounting over a window *)

(** A property of the target bookkeeping (target, checkpoint,
    accumulator) that holds once [start()] has reset it and that every
    tick of the window preserves, holds when the window ends. *)
Lemma window_target_invariant (P : t -> Prop) (Q : TickEnv -> Prop) :
  (forall s s', target s' = target s ->
                lastTargetCheck s' = lastTargetCheck s ->
                timeOverTarget s' = timeOverTarget s -> P s -> P s') ->
  (forall env s, Q env -> P s -> P (fst (_takeSample env s))) ->
  forall (s : t) (b : StartEnv) (ticks : list TickEnv) (e : StopEnv),
    running s = false ->
    (forall s0, target s0 = target s ->
                lastTargetCheck s0 = Some (now_lastTargetCheck b) ->
                timeOverTarget s0 = 0 -> P s0) ->
    Forall Q (window_samples b ticks e) ->
    P (fst (run s (cycle b ticks e))).
Proof.
  intros Hfields Htick s b ticks e Hr Hinit Hall.
  unfold window_samples in Hall. apply Forall_cons_iff in Hall as [Hfirst Hall].
  apply Forall_app in Hall as [Hticks Hfinal].
  apply Forall_cons_iff in Hfinal as [Hfinal _].
  rewrite run_cycle.
  assert (Hstart : P (fst (start b s))).
  { unfold start. rewrite Hr.
    match goal with
    | |- context [_takeSample ?env ?s0] =>
        assert (Hk : P (fst (_takeSample env s0)))
          by (apply Htick; [exact Hfirst | apply Hinit; reflexivity]);
        destruct (_takeSample env s0) as [s1 calls]
    end.
    cbn [fst] in *.
    destruct (monitorEventLoop s1); (eapply Hfields; [| | | exact Hk]); reflexivity. }
  destruct (start_memorySamples b s Hr) as (_ & Hrun & Hi & _).
  assert (Hloop : forall l s0,
    Forall Q l -> intervalHandle s0 <> None -> running s0 = true -> P s0 ->
    P (fst (run s0 (map OpTick l))) /\ running (fst (run s0 (map OpTick l))) = true).
  { induction l as [|env l IH]; intros s0 Hl Hh Hr0 Hp; [split; assumption|].
    apply Forall_cons_iff in Hl as [Henv Hl].
    cbn [map]. rewrite run_cons. cbn [fst step].
    destruct (intervalHandle s0) as [h|] eqn:Hs; [|contradiction].
    pose proof (takeSample_frame env s0) as (Hr' & _ & _ & Hi' & _).
    apply IH; [exact Hl | rewrite Hi', Hs; discriminate | rewrite Hr'; exact Hr0 |].
    apply Htick; assumption. }
  destruct (Hloop ticks _ Hticks Hi Hrun Hstart) as [Hp Hr1].
  unfold stop. rewrite Hr1. cbn [negb].
  match goal with
  | |- context [_takeSample ?env ?s0] =>
      assert (Hk : P (fst (_takeSample env s0)))
        by (apply Htick; [exact Hfinal|];
            (eapply Hfields; [| | | exact Hp]); reflexivity);
      destruct (_takeSample env s0) as [s1 calls]
  end.
  cbn [fst] in *.
  destruct (intervalHandle s1); (eapply Hfields; [| | | exact Hk]); reflexivity.
Qed.

Lemma takeSample_over_target (env : TickEnv) (s : t) (tg last : Z) :
  target s = Some tg -> tg <> 0 ->
  over_target tg env = true ->
  lastTargetCheck s = Some last -> last <> 0 ->
  target (fst (_takeSample env s)) = Some tg
  /\ lastTargetCheck (fst (_takeSample env s)) = Some (now_target env)
  /\ timeOverTarget (fst (_takeSample env s))
     = timeOverTarget s + (now_target env - last).
Proof.
  intros Ht Htg Hover Hl Hlast. unfold over_target, cpu_ok in Hover.
  unfold _takeSample, MemorySnapshot.new, CPUSnapshot.new.
  destruct (memoryUsage env) as [mu|]; [|discriminate].
  destruct (cpuUsage env) as [cu|]; [|discriminate]. cbn [andb] in Hover.
  match goal with
  | |- context [check_threshold ?e ?m ?s0] =>
      assert (Hc : target (fst (check_threshold e m s0)) = target s
                   /\ timeOverTarget (fst (check_threshold e m s0))
                      = timeOverTarget s
                   /\ lastTargetCheck (fst (check_threshold e m s0))
                      = lastTargetCheck s)
        by (unfold check_threshold; repeat (break_match; cbn); auto);
      destruct (check_threshold e m s0) as [s1 calls]
  end.
  cbn [fst] in *. destruct Hc as (Ht1 & Ho1 & Hl1).
  unfold track_target. rewrite Ht1, Ht, Hl1, Hl. unfold JS.truthy.
  destruct (Z.eqb_spec tg 0); [contradiction|].
  destruct (Z.eqb_spec last 0); [contradiction|]. cbn [negb].
  change (MemorySnapshot.total _) with (mu_heapUsed mu). rewrite Hover.
  cbn. rewrite Ht1, Ho1, Ht. repeat split.
Qed.

Lemma takeSample_not_over_target (env : TickEnv) (s : t) (tg : Z) :
  target s = Some tg ->
  not_over_target tg env = true ->
  target (fst (_takeSample env s)) = Some tg
  /\ timeOverTarget (fst (_takeSample env s)) = timeOverTarget s.
Proof.
  intros Ht Hnot.
  split; [destruct (takeSample_same_config env s) as (_&_&_&_&->&_); exact Ht|].
  unfold not_over_target in Hnot.
  unfold _takeSample, MemorySnapshot.new, CPUSnapshot.new.
  destruct (memoryUsage env) as [mu|]; [|reflexivity].
  destruct (cpuUsage env) as [cu|]; [|reflexivity].
  match goal with
  | |- context [check_threshold ?e ?m ?s0] =>
      assert (Hc : target (fst (check_threshold e m s0)) = target s
                   /\ timeOverTarget (fst (check_threshold e m s0))
                      = timeOverTarget s)
        by (unfold check_threshold; repeat (break_match; cbn); auto);
      destruct (check_threshold e m s0) as [s1 calls]
  end.
  cbn [fst] in *. destruct Hc as (Ht1 & Ho1).
  unfold track_target. rewrite Ht1, Ht.
  change (MemorySnapshot.total _) with (mu_heapUsed mu).
  assert (Hgt : (mu_heapUsed mu >? tg) = false).
  { apply Z.leb_le in Hnot. destruct (Z.gtb_spec (mu_heapUsed mu) tg);
      [lia | reflexivity]. }
  rewrite Hgt.
  destruct (JS.truthy tg); [|exact Ho1].
  destruct (lastTargetCheck s1) as [last|]; [destruct (JS.truthy last)|];
    cbn; exact Ho1.
Qed.

Lemma takeSample_checkpoint (env : TickEnv) (s : t) (tg : Z) :
  target s = Some tg -> tg <> 0 ->
  over_target tg env = true ->
  lastTargetCheck (fst (_takeSample env s)) = Some (now_target env).
Proof.
  intros Ht Htg Hover. unfold over_target, cpu_ok in Hover.
  unfold _takeSample, MemorySnapshot.new, CPUSnapshot.new.
  destruct (memoryUsage env) as [mu|]; [|discriminate].
  destruct (cpuUsage env) as [cu|]; [|discriminate].
  match goal with
  | |- context [check_threshold ?e ?m ?s0] =>
      assert (Hc : target (fst (check_threshold e m s0)) = target s)
        by (unfold check_threshold; repeat (break_match; cbn); auto);
      destruct (check_threshold e m s0) as [s1 calls]
  end.
  cbn [fst] in *. unfold track_target. rewrite Hc, Ht. unfold JS.truthy.
  destruct (Z.eqb_spec tg 0); [contradiction|]. reflexivity.
Qed.

(** X17. When every sample of a window is captured and finds the heap
    above the target, the whole window counts as over target: the
    accumulated time is the clock reading of the final sample's target
    check minus the reading [start()] stored as its checkpoint (the
    readings being non-zero). *)
Theorem always_over_target_counts_whole_window :
  forall (s : t) (b : StartEnv) (ticks : list TickEnv) (e : StopEnv) (tg : Z),
    running s = false ->
    target s = Some tg -> tg <> 0 ->
    now_lastTargetCheck b <> 0 ->
    Forall (fun env => over_target tg env = true /\ now_target env <> 0)
      (window_samples b ticks e) ->
    timeOverTarget (fst (run s (cycle b ticks e)))
    = now_target (final_sample e) - now_lastTargetCheck b.
Proof.
  intros s b ticks e tg Hr Ht Htg Hc Hall.
  set (P := fun s0 : t =>
    target s0 = Some tg
    /\ exists last, lastTargetCheck s0 = Some last /\ last <> 0
                    /\ timeOverTarget s0 = last - now_lastTargetCheck b).
  assert (HP : P (fst (run s (cycle b ticks e)))).
  { apply (window_target_invariant P
             (fun env => over_target tg env = true /\ now_target env <> 0));
      try assumption.
    - intros s0 s' H1 H2 H3 (Ht0 & last & Hl & Hn & Ho). split; [congruence|].
      exists last. repeat split; congruence.
    - intros env s0 [Hover Hnow] (Ht0 & last & Hl & Hn & Ho).
      destruct (takeSample_over_target env s0 tg last Ht0 Htg Hover Hl Hn)
        as (Ht1 & Hl1 & Ho1).
      split; [exact Ht1|]. exists (now_target env).
      repeat split; [exact Hl1 | exact Hnow | lia].
    - intros s0 H1 H2 H3. split; [congruence|].
      exists (now_lastTargetCheck b). repeat split; [exact H2 | exact Hc | lia]. }
  assert (Hlast : lastTargetCheck (fst (run s (cycle b ticks e)))
                  = Some (now_target (final_sample e))).
  { unfold window_samples in Hall. apply Forall_cons_iff in Hall as [_ Hall].
    apply Forall_app in Hall as [_ Hfinal].
    apply Forall_cons_iff in Hfinal as [[Hover _] _].
    rewrite run_cycle.
    destruct (start_memorySamples b s Hr) as (_ & Hrun & Hi & _).
    destruct (ticks_memorySamples ticks _ Hi) as (_ & Hr1 & _).
    rewrite Hrun in Hr1.
    pose proof (run_same_config (map OpTick ticks) (fst (start b s)))
      as (_ & _ & _ & _ & Ht2 & _).
    pose proof (start_same_config b s) as (_ & _ & _ & _ & Ht1 & _).
    rewrite Ht1, Ht in Ht2.
    unfold stop. rewrite Hr1. cbn [negb].
    match goal with
    | |- context [_takeSample ?env ?s0] =>
        pose proof (takeSample_checkpoint env s0 tg Ht2 Htg Hover) as Hk;
        destruct (_takeSample env s0) as [s1 calls]
    end.
    cbn [fst] in *. destruct (intervalHandle s1); exact Hk. }
  destruct HP as (_ & last & Hl & _ & Ho). rewrite Hl in Hlast.
  injection Hlast as ->. exact Ho.
Qed.

(** X18. When no captured sample of a window finds the heap above the
    target, nothing is accumulated: the time over target of the window
    is [0], whatever the clock does. *)
Theorem never_over_target_counts_nothing :
  forall (s : t) (b : StartEnv) (ticks : list TickEnv) (e : StopEnv) (tg : Z),
    running s = false ->
    target s = Some tg ->
    Forall (fun env => not_over_target tg env = true) (window_samples b ticks e) ->
    timeOverTarget (fst (run s (cycle b ticks e))) = 0.
Proof.
  intros s b ticks e tg Hr Ht Hall.
  assert (HP : target (fst (run s (cycle b ticks e))) = Some tg
               /\ timeOverTarget (fst (run s (cycle b ticks e))) = 0);
    [|apply HP].
  apply (window_target_invariant
           (fun s0 => target s0 = Some tg /\ timeOverTarget s0 = 0)
           (fun env => not_over_target tg env = true));
    try assumption.
  - intros s0 s' H1 H2 H3 [Ht0 Ho]. split; congruence.
  - intros env s0 Hnot [Ht0 Ho].
    destruct (takeSample_not_over_target env s0 tg Ht0 Hnot) as [Ht1 Ho1].
    split; [exact Ht1 | lia].
  - intros s0 H1 H2 H3. split; congruence.
Qed.

(** ** Samples within a window *)

Lemma takeSample_cpuSamples_prefix (env : TickEnv) (s : t) :
  exists added,
    cpuSamples (fst (_takeSample env s)) = (cpuSamples s ++ added)%list.
Proof.
  unfold _takeSample.
  destruct (MemorySnapshot.new _ _) as [m|];
    [|exists []; cbn; rewrite app_nil_r; reflexivity].
  destruct (CPUSnapshot.new _ _ _) as [c|];
    [|exists []; cbn; rewrite app_nil_r; reflexivity].
  exists [c]. unfold check_threshold, track_target.
  repeat (break_match; cbn [fst snd]); reflexivity.
Qed.

(** X19. While a window is open, samples are only appended: an interval
    tick, the [stop()] or [report()] that closes the window, a redundant
    [start()] or a lag tick leave every sample already taken in place
    and unchanged, memory and CPU alike.  Only [reset()] removes them. *)
Theorem samples_are_append_only_within_window :
  forall (s : t) (op : Op),
    running s = true ->
    is_reset op = false ->
    exists mem_added cpu_added,
      memorySamples (fst (step s op)) = (memorySamples s ++ mem_added)%list
      /\ cpuSamples (fst (step s op)) = (cpuSamples s ++ cpu_added)%list.
Proof.
  intros s op Hr Hop.
  assert (Hsame : exists mem_added cpu_added,
            memorySamples s = (memorySamples s ++ mem_added)%list
            /\ cpuSamples s = (cpuSamples s ++ cpu_added)%list).
  { exists [], []. rewrite !app_nil_r. split; reflexivity. }
  assert (Htick : forall env s0,
            memorySamples s0 = memorySamples s -> cpuSamples s0 = cpuSamples s ->
            exists mem_added cpu_added,
              memorySamples (fst (_takeSample env s0))
              = (memorySamples s ++ mem_added)%list
              /\ cpuSamples (fst (_takeSample env s0))
                 = (cpuSamples s ++ cpu_added)%list).
  { intros env s0 Hm Hc.
    destruct (takeSample_cpuSamples_prefix env s0) as [ca Hca].
    exists (mem_appended env), ca.
    rewrite takeSample_memorySamples, Hca, Hm, Hc. split; reflexivity. }
  assert (Hstop : forall e, exists mem_added cpu_added,
            memorySamples (fst (stop e s)) = (memorySamples s ++ mem_added)%list
            /\ cpuSamples (fst (stop e s)) = (cpuSamples s ++ cpu_added)%list).
  { intros e. unfold stop. rewrite Hr. cbn [negb].
    match goal with
    | |- context [_takeSample ?env ?s0] =>
        destruct (Htick env s0 eq_refl eq_refl) as (ma & ca & Hm & Hc);
        destruct (_takeSample env s0) as [s1 calls]
    end.
    cbn [fst] in *. exists ma, ca. destruct (intervalHandle s1); split; assumption. }
  destruct op; cbn [step]; cbn in Hop.
  - unfold start. rewrite Hr. exact Hsame.
  - apply Hstop.
  - rewrite report_state, Hr. apply Hstop.
  - discriminate.
  - destruct (intervalHandle s); [apply Htick; reflexivity | exact Hsame].
  - exact Hsame.
Qed.

Lemma array_get_last {A : Type} (l : list A) (x : A) :
  JS.array_get (l ++ [x]) (JS.length (l ++ [x]) - 1) = Some x.
Proof.
  unfold JS.array_get, JS.length. rewrite length_app. cbn [List.length].
  destruct (Z.ltb_spec (Z.of_nat (List.length l + 1) - 1) 0); [lia|].
  replace (Z.to_nat (Z.of_nat (List.length l + 1) - 1)) with (List.length l) by lia.
  rewrite nth_error_app2 by lia. rewrite Nat.sub_diag. reflexivity.
Qed.

(** X21. Every CPU sample after the first is measured against the sample
    just before it: a tick whose captures succeed appends one CPU sample
    whose timestamp and counters are the tick's readings and whose
    percentage is computed from the last sample of the sequence. *)
Theorem cpu_sample_is_relative_to_previous :
  forall (env : TickEnv) (s : t) (earlier : list CPUSnapshot.t)
         (prev : CPUSnapshot.t) (cu : CpuUsage),
    cpuSamples s = (earlier ++ [prev])%list ->
    mem_ok env = true ->
    cpuUsage env = Some cu ->
    cpuSamples (fst (_takeSample env s))
    = (cpuSamples s
       ++ [{| CPUSnapshot.timestamp := now_cpu env;
              CPUSnapshot.usage := cu;
              CPUSnapshot.percentage :=
                CPUSnapshot.percentage_from prev (now_cpu env) cu |}])%list.
Proof.
  intros env s earlier prev cu Hs Hm Hc. unfold mem_ok in Hm.
  unfold _takeSample, MemorySnapshot.new.
  destruct (memoryUsage env) as [mu|]; [|discriminate].
  cbn [cpuSamples set_memorySamples]. rewrite Hs, array_get_last, Hc.
  unfold CPUSnapshot.new, check_threshold, track_target.
  repeat (break_match; cbn [fst snd]); reflexivity.
Qed.

(** ** Status *)

Lemma step_started (s : t) (op : Op) :
  (running s = true -> startTime s <> None) ->
  running (fst (step s op)) = true -> startTime (fst (step s op)) <> None.
Proof.
  intros H. destruct op; cbn [step].
  - unfold start. destruct (running s) eqn:Hr; [intros _; apply H; reflexivity|].
    match goal with
    | |- context [_takeSample ?env ?s0] =>
        pose proof (takeSample_frame env s0) as (_ & Hst & _);
        destruct (_takeSample env s0) as [s1 calls]
    end.
    cbn [fst] in *. cbn in Hst. intros _.
    destruct (monitorEventLoop s1); cbn; rewrite Hst; discriminate.
  - rewrite stop_not_running. discriminate.
  - rewrite report_state. destruct (running s) eqn:Hr;
      [rewrite stop_not_running; discriminate | cbn; rewrite Hr; discriminate].
  - destruct (reset_clears_state env s) as (_&_&_&_&_&_&_&->). discriminate.
  - destruct (intervalHandle s); [|exact H].
    pose proof (takeSample_frame env s) as (-> & -> & _). exact H.
  - exact H.
Qed.

(** X20. [status()] of any session reached from its construction:
    while the session runs, [startTime] is set and the uptime is the
    time since it; while it is stopped the uptime is [0]; and the
    samples collected are those a report would count. *)
Theorem status_reports_uptime_and_samples :
  forall (options : Options.t) (collected : option SystemInfo) (d : t)
         (ops : list Op) (now : Z),
    constructor options collected = Ok d ->
    let s := fst (run d ops) in
    status_name (status now s) = name d
    /\ samplesCollected (status now s) = JS.length (memorySamples s)
    /\ (running s = false -> uptime (status now s) = 0)
    /\ (running s = true ->
        exists began, startTime s = Some began
                      /\ uptime (status now s) = now - began).
Proof.
  intros options collected d ops now Hd s.
  destruct (constructor_initial _ _ _ Hd) as (Hr & _).
  split; [apply (run_same_config ops d)|]. split; [reflexivity|].
  cbn [status uptime]. split; [intros ->; reflexivity|].
  intros Hrun. rewrite Hrun.
  assert (Hs : forall ops0 s0,
            (running s0 = true -> startTime s0 <> None) ->
            running (fst (run s0 ops0)) = true ->
            startTime (fst (run s0 ops0)) <> None).
  { induction ops0 as [|op ops0 IH]; intros s0 H0; [exact H0|].
    rewrite run_cons. cbn [fst]. apply IH, step_started, H0. }
  specialize (Hs ops d). fold s in Hs.
  destruct (startTime s) as [began|] eqn:Hst.
  - exists began. split; reflexivity.
  - exfalso. apply Hs; [rewrite Hr; discriminate | exact Hrun | reflexivity].
Qed.

End Properties.

(** * The properties on concrete sessions

    From here on the engine is the one with the exact logarithm. *)

#[local] Existing Instance reference_host.

(** The exact index brackets the count between two powers of 1024. *)
Lemma exact_log_index_bounds (bytes : Z) :
  0 < bytes ->
  let i := exact_log_index bytes in
  0 <= i /\ 1024 ^ i <= bytes < 1024 ^ (i + 1).
Proof.
  intros Hpos i. subst i. unfold exact_log_index.
  change (Z.log2 1024) with 10.
  pose proof (Z.log2_nonneg bytes) as Hnn.
  pose proof (Z.log2_spec bytes Hpos) as [Hlo Hhi].
  pose proof (Z.div_mod (Z.log2 bytes) 10 ltac:(lia)) as Hdm.
  pose proof (Z.mod_pos_bound (Z.log2 bytes) 10 ltac:(lia)) as Hmod.
  set (q := Z.log2 bytes / 10) in *.
  assert (Hq : 0 <= q) by (subst q; apply Z.div_pos; lia).
  assert (H1024 : forall n, 0 <= n -> 1024 ^ n = 2 ^ (10 * n)).
  { intros n Hn. rewrite Z.pow_mul_r by lia. reflexivity. }
  split; [exact Hq|].
  rewrite !H1024 by lia. split.
  - apply Z.le_trans with (2 ^ Z.log2 bytes); [|exact Hlo].
    apply Z.pow_le_mono_r; lia.
  - apply Z.lt_le_trans with (2 ^ Z.succ (Z.log2 bytes)); [exact Hhi|].
    apply Z.pow_le_mono_r; lia.
Qed.

(** Just below a power of 1024 the unit depends on the engine: with the
    exact logarithm [2^50 - 1] bytes are 1024 TB, with the rounded one
    the index leaves the table. *)
Example formatBytes_below_power_of_k :
  @formatBytes reference_host (2 ^ 50 - 1) = "1024.00 TB"
  /\ @formatBytes rounding_host (2 ^ 50 - 1) = "1.00 undefined".
Proof. split; vm_compute; reflexivity. Qed.

(** Renderings given in the documentation of the two functions. *)
Example formatters_more_values :
  formatBytes 1536 = "1.50 KB"
  /\ formatBytes 500000000 = "476.84 MB"
  /\ formatBytes (1024 * 1024 * 1024 * 1024) = "1.00 TB"
  /\ formatDuration 3661000 = "1h 1m 1s"
  /\ formatDuration 90061000 = "1d 1h 1m 1s".
Proof.
  repeat split; vm_compute; reflexivity.
Qed.

(** ** C9: units that are zero are printed *)



Example app_session_constructed (threshold target : option Z) :
  constructor (app_options threshold target) None
  = Ok (app_session threshold target).
Proof. reflexivity. Qed.

(** ** C1: a second window does not add to the first *)

(** Two windows of 200 ms with three interval ticks each, no [reset()]
    in between: five samples after the first, five after the second. *)
Lemma second_window_starts_from_zero :
  let first := cycle (window_start epoch 0) (three_ticks epoch)
                 (window_stop (epoch + 200) 4000) in
  let second := cycle (window_start (epoch + 300) 5000) (three_ticks (epoch + 300))
                  (window_stop (epoch + 500) 9000) in
  let s1 := fst (run (app_session None None) first) in
  let s2 := fst (run s1 second) in
  samplesCollected (status (epoch + 500) s1) = 5
  /\ samplesCollected (status (epoch + 500) s2) = 5
  /\ ~ (samplesCollected (status (epoch + 500) s1)
        < samplesCollected (status (epoch + 500) s2)).
Proof.
  cbv zeta.
  assert (H1 : samplesCollected (status (epoch + 500)
            (fst (run (app_session None None)
               (cycle (window_start epoch 0) (three_ticks epoch)
                  (window_stop (epoch + 200) 4000))))) = 5)
    by (vm_compute; reflexivity).
  assert (H2 : samplesCollected (status (epoch + 500)
            (fst (run (fst (run (app_session None None)
               (cycle (window_start epoch 0) (three_ticks epoch)
                  (window_stop (epoch + 200) 4000))))
               (cycle (window_start (epoch + 300) 5000) (three_ticks (epoch + 300))
                  (window_stop (epoch + 500) 9000))))) = 5)
    by (vm_compute; reflexivity).
  rewrite H1, H2. repeat split. lia.
Qed.

(** The theorem on the first of these windows. *)
Lemma each_window_witness :
  let s := app_session None None in
  let s' := fst (run s (cycle (window_start epoch 0) (three_ticks epoch)
                          (window_stop (epoch + 200) 4000))) in
  running s = false
  /\ samplesCollected (status (epoch + 200) s') = 2 + 3
  /\ samplesCollected
       (status (epoch + 200) (fst (reset (window_stop (epoch + 250) 4000) s'))) = 0.
Proof.
  cbv zeta. split; [reflexivity|].
  pose proof (each_window_counts_its_own_samples (app_session None None)
                (window_start epoch 0) (three_ticks epoch)
                (window_stop (epoch + 200) 4000) (epoch + 200) eq_refl)
    as (_ & Hcount & Hreset).
  split; [exact (Hcount eq_refl) | apply Hreset].
Defined.

(** ** C4: a failed CPU capture leaves an unpaired memory sample *)

(** [start()] then [stop()], with [process.cpuUsage()] throwing in the
    final sample: two memory samples, one CPU sample. *)
Lemma cpu_failure_unpairs_sequences :
  let s' := fst (run (app_session None None)
                   (cycle (window_start epoch 0) []
                      {| now_endTime := epoch + 200;
                         final_sample := reading_cpu_fails (epoch + 200) |})) in
  JS.length (memorySamples s') = 2
  /\ JS.length (cpuSamples s') = 1
  /\ JS.length (memorySamples s') <> JS.length (cpuSamples s').
Proof. cbv zeta. vm_compute. repeat split; discriminate. Qed.

(** The theorem on a window in which every capture succeeds. *)
Lemma sequences_paired_witness :
  let s := app_session None None in
  let s' := fst (run s (cycle (window_start epoch 0) (three_ticks epoch)
                          (window_stop (epoch + 200) 4000))) in
  running s = false
  /\ JS.length (memorySamples s') = JS.length (cpuSamples s')
  /\ 2 <= JS.length (memorySamples s').
Proof.
  cbv zeta. split; [reflexivity|].
  exact (proj2 sequences_paired_unless_cpu_capture_fails
           (app_session None None) (window_start epoch 0) (three_ticks epoch)
           (window_stop (epoch + 200) 4000) eq_refl eq_refl eq_refl eq_refl).
Defined.

(** ** C3: the final sample is taken after [endTime] *)

(** Target of one byte, interval 50 ms.  The session runs for 100 ms by
    its clock block; in [stop()] the process is held up for another
    100 ms between the reading stored as [endTime] and the reading of the
    final sample's target check.  The report gives 200 ms over target,
    0 ms under, for a duration of 100 ms. *)
Lemma late_final_sample_exceeds_duration :
  let r := snd (report (report_env (epoch + 400))
             (fst (run (app_session None (Some 1))
                (cycle (window_start epoch 0) [reading (epoch + 50) 1000]
                   {| now_endTime := epoch + 100;
                      final_sample := reading_late (epoch + 100) 100 2000 |})))) in
  let total := analysis_timeOverTarget (analysis r) + timeUnderTarget (analysis r) in
  samplingInterval (analysis r) = 50
  /\ duration (clock r) = 100
  /\ analysis_timeOverTarget (analysis r) = 200
  /\ timeUnderTarget (analysis r) = 0
  /\ ~ (Z.abs (total - duration (clock r)) <= samplingInterval (analysis r))
  /\ ~ (total <= duration (clock r)).
Proof. cbv zeta. vm_compute. repeat split; intros H; apply H; reflexivity. Qed.

(** The theorem on a window whose clock stands still during each tick:
    the two times add up to the duration. *)
Lemma target_times_witness :
  let s := app_session None (Some 1) in
  let b := window_start epoch 0 in
  let e := window_stop (epoch + 200) 4000 in
  let r := snd (report (report_env (epoch + 400))
                  (fst (run s (cycle b (three_ticks epoch) e)))) in
  running s = false
  /\ chain 1 (clock_of (cycle b (three_ticks epoch) e)) = true
  /\ duration (clock r) = 200
  /\ analysis_timeOverTarget (analysis r) + timeUnderTarget (analysis r)
     = Z.max (duration (clock r)) (analysis_timeOverTarget (analysis r)).
Proof.
  cbv zeta. split; [reflexivity|]. split; [vm_compute; reflexivity|].
  pose proof (target_times_cover_duration (app_session None (Some 1))
                (window_start epoch 0) (three_ticks epoch)
                (window_stop (epoch + 200) 4000) (report_env (epoch + 400))
                eq_refl ltac:(vm_compute; reflexivity))
    as (Hd & _ & Hsum & _).
  split; [rewrite Hd; reflexivity | exact Hsum].
Defined.

(** ** C5: the accumulator follows the wall clock *)



(** ** C7: a session of exactly two samples *)

(** [start()] then [stop()] 200 ms later, 60 ms of CPU time consumed:
    the statistics are those of the second sample, 30 percent. *)
Lemma cpu_statistics_witness :
  let d := app_session None None in
  let ops := cycle (window_start epoch 0) [] (window_stop (epoch + 200) 60000) in
  let result := report (report_env (epoch + 400)) (fst (run d ops)) in
  constructor (app_options None None) None = Ok d
  /\ List.length (cpuSamples (fst (fst result))) = 2%nat
  /\ cpu (snd result)
     = _calculateStats (tl (cpuSamples (fst (fst result)))) CPUSnapshot.percentage
  /\ peak (cpu (snd result)) = 30%float.
Proof.
  cbv zeta. split; [reflexivity|]. split; [vm_compute; reflexivity|].
  split; [|vm_compute; reflexivity].
  exact (proj1 (cpu_statistics_exclude_first_sample
                  (app_options None None) None (app_session None None)
                  (cycle (window_start epoch 0) [] (window_stop (epoch + 200) 60000))
                  (report_env (epoch + 400)) eq_refl)).
Defined.

(** ** C10: a threshold and a target of zero *)

(** A window of the session built with [threshold: 0, target: 0]. *)
Lemma zero_options_witness :
  let d := app_session (Some 0) (Some 0) in
  let ops := cycle (window_start epoch 0) (three_ticks epoch)
               (window_stop (epoch + 200) 4000) in
  constructor (app_options (Some 0) (Some 0)) None = Ok d
  /\ snd (run d ops) = []
  /\ alertTriggerCount (fst (run d ops)) = 0
  /\ timeOverTarget (fst (run d ops)) = 0.
Proof.
  cbv zeta. split; [reflexivity|].
  pose proof (proj2 (proj2 (proj2 (zero_options_are_unconfigured
                (app_options (Some 0) (Some 0)) None)))
                (app_session (Some 0) (Some 0)) eq_refl)
    as (_ & Hth & Htg).
  destruct (Hth eq_refl) as [_ Halerts]. destruct (Htg eq_refl) as [_ Htime].
  destruct (Halerts (cycle (window_start epoch 0) (three_ticks epoch)
               (window_stop (epoch + 200) 4000))) as [Hcalls Hcount].
  split; [exact Hcalls|]. split; [exact Hcount | apply Htime].
Defined.

(** With a threshold of one byte the same window alerts at every sample. *)
Example one_byte_threshold_alerts :
  let ops := cycle (window_start epoch 0) (three_ticks epoch)
               (window_stop (epoch + 200) 4000) in
  let result := run (app_session (Some 1) None) ops in
  alertTriggerCount (fst result) = 5
  /\ List.length (snd result) = 5%nat
  /\ map alert_name (snd result) = ["app"; "app"; "app"; "app"; "app"]
  /\ map (fun a => formatted_current (alert_memory a)) (snd result)
     = ["7.63 MB"; "7.63 MB"; "7.63 MB"; "7.63 MB"; "7.63 MB"].
Proof. cbv zeta. vm_compute. repeat split. Qed.

(** ** C2: [start()] and [stop()] within one millisecond *)

(** The second CPU sample is taken at the timestamp of the first: its
    percentage is [NaN], and so are the CPU statistics of the report. *)
Example same_millisecond_session :
  let ops := cycle (window_start epoch 0) [] (window_stop epoch 0) in
  let result := report (report_env (epoch + 400))
                  (fst (run (app_session None None) ops)) in
  map (fun c => PrimFloat.is_nan (CPUSnapshot.percentage c))
    (cpuSamples (fst (fst result))) = [false; true]
  /\ PrimFloat.is_nan (peak (cpu (snd result))) = true
  /\ PrimFloat.is_nan (average (cpu (snd result))) = true.
Proof. cbv zeta. vm_compute. repeat split. Qed.

(** ** The further properties on the concrete sessions *)

(** X3 on the stopped session: a late interval tick does nothing. *)
Lemma timers_witness :
  let s := fst (run (app_session None None) app_window) in
  constructor (app_options None None) None = Ok (app_session None None)
  /\ running s = false
  /\ step s (OpTick (reading (epoch + 250) 5000)) = (s, []).
Proof.
  cbv zeta. split; [reflexivity|].
  assert (Hr : running (fst (run (app_session None None) app_window)) = false)
    by (vm_compute; reflexivity).
  split; [exact Hr|].
  destruct (timers_armed_exactly_while_running (app_options None None) None
              (app_session None None) app_window eq_refl) as (_ & _ & H).
  exact (proj1 (H Hr (reading (epoch + 250) 5000) PrimFloat.zero)).
Defined.

(** X5 on the finished window: a report asked 200 ms or 10 s later. *)
Lemma report_stable_witness :
  let s := fst (run (app_session None (Some 1)) app_window) in
  running s = false
  /\ report (report_env (epoch + 400)) s = report (report_env (epoch + 10200)) s.
Proof.
  cbv zeta.
  assert (Hr : running (fst (run (app_session None (Some 1)) app_window)) = false)
    by (vm_compute; reflexivity).
  split; [exact Hr|].
  apply (report_of_finished_session_is_stable
           (fst (run (app_session None (Some 1)) app_window))
           epoch (epoch + 200)).
  - exact Hr.
  - vm_compute; reflexivity.
  - vm_compute; reflexivity.
  - discriminate.
  - discriminate.
Defined.

(** X6 on a fresh session whose report straddles a millisecond. *)
Lemma report_before_start_witness :
  let env := {| report_stop := window_stop epoch 0;
                now_end_fallback := epoch; now_start_fallback := epoch + 1 |} in
  let r := snd (report env (app_session None None)) in
  constructor (app_options None None) None = Ok (app_session None None)
  /\ duration (clock r) = -1
  /\ numSamples (analysis r) = 0
  /\ cpu r = zero_stats.
Proof.
  cbv zeta. split; [reflexivity|].
  pose proof (report_before_any_start (app_options None None) None
                (app_session None None)
                {| report_stop := window_stop epoch 0;
                   now_end_fallback := epoch; now_start_fallback := epoch + 1 |}
                eq_refl) as H.
  cbv zeta in H.
  destruct H as (_ & Hn & _ & _ & _ & _ & _ & Hcpu & _ & _ & _ & Hd & _).
  split; [rewrite Hd; vm_compute; reflexivity|]. split; assumption.
Defined.

(** X8 on the window with a threshold of one byte: five alerts. *)
Lemma alert_count_witness :
  let result := run (app_session (Some 1) None) app_window in
  running (app_session (Some 1) None) = false
  /\ List.length (snd result) = 5%nat
  /\ alertTriggerCount (fst result) = JS.length (snd result).
Proof.
  cbv zeta. split; [reflexivity|]. split; [vm_compute; reflexivity|].
  apply (alert_count_is_number_of_callbacks (app_session (Some 1) None)
           (window_start epoch 0) (three_ticks epoch)
           (window_stop (epoch + 200) 4000) (report_env (epoch + 400)) eq_refl).
Defined.

(** X10 on a first sample followed by a same-millisecond one. *)
Lemma calculateStats_nan_witness :
  let samples := [first_cpu_sample; nan_cpu_sample] in
  In nan_cpu_sample samples
  /\ PrimFloat.is_nan
       (average (_calculateStats samples CPUSnapshot.percentage)) = true.
Proof.
  cbv zeta. split; [right; left; reflexivity|].
  apply (calculateStats_propagates_nan CPUSnapshot.t
           [first_cpu_sample; nan_cpu_sample] CPUSnapshot.percentage
           nan_cpu_sample).
  - right; left; reflexivity.
  - reflexivity.
Defined.

(** X12 on a monitor whose timer fires early (90 ms) and then late
    (160 ms after that): lags 0 and 60. *)
Lemma recorded_lags_witness :
  let ops := [OpStart (window_start epoch 0); OpLagTick 90%float;
              OpLagTick 250%float] in
  constructor (app_options None None) None = Ok (app_session None None)
  /\ EventLoopMonitor.samples
       (eventLoopMonitor (fst (run (app_session None None) ops)))
     = [0%float; 60%float]
  /\ Forall lag_not_negative
       (EventLoopMonitor.samples
          (eventLoopMonitor (fst (run (app_session None None) ops)))).
Proof.
  cbv zeta. split; [reflexivity|]. split; [vm_compute; reflexivity|].
  apply (recorded_lags_are_not_negative (app_options None None) None
           (app_session None None)). reflexivity.
Defined.

(** X13 on the quiet session: lag ticks find no armed timer. *)
Lemma disabled_monitor_witness :
  let ops := [OpStart (window_start epoch 0); OpLagTick 250%float;
              OpStop (window_stop (epoch + 200) 4000)] in
  constructor quiet_options None = Ok quiet_session
  /\ Options.monitorEventLoop quiet_options = Some false
  /\ eventLoop_lag (snd (report (report_env (epoch + 400))
                           (fst (run quiet_session ops)))) = zero_lag.
Proof.
  cbv zeta. split; [reflexivity|]. split; [reflexivity|].
  apply (disabled_monitor_reports_zero_lag quiet_options None quiet_session);
    reflexivity.
Defined.

(** X14 on ninety and a half seconds. *)
Lemma formatDuration_truncates_witness :
  1000 <= 90500 /\ formatDuration 90500 = "1m 30s".
Proof.
  assert (H : 1000 <= 90500) by lia.
  split; [exact H|].
  rewrite (formatDuration_truncates_to_seconds 90500 H). vm_compute. reflexivity.
Defined.

(** X15 on minus five milliseconds. *)
Lemma formatDuration_negative_witness :
  -5 < 0 /\ formatDuration (-5) = "-5ms".
Proof.
  assert (H : -5 < 0) by lia.
  split; [exact H|].
  rewrite (formatDuration_negative_is_raw (-5) H). vm_compute. reflexivity.
Defined.

(** X16 on half a kilobyte. *)
Lemma formatBytes_small_witness :
  0 < 512 < 1024 /\ formatBytes 512 = "512.00 B".
Proof.
  assert (H : 0 < 512 < 1024) by lia.
  split; [exact H|].
  rewrite (formatBytes_below_one_kilobyte 512 H). vm_compute. reflexivity.
Defined.

(** X17 on the window with a target of one byte: 200 ms over target. *)
Lemma always_over_target_witness :
  let s := app_session None (Some 1) in
  running s = false /\ target s = Some 1
  /\ timeOverTarget (fst (run s app_window)) = 200.
Proof.
  cbv zeta. split; [reflexivity|]. split; [reflexivity|].
  unfold app_window.
  rewrite (always_over_target_counts_whole_window (app_session None (Some 1))
             (window_start epoch 0) (three_ticks epoch)
             (window_stop (epoch + 200) 4000) 1 eq_refl eq_refl).
  - vm_compute. reflexivity.
  - discriminate.
  - discriminate.
  - repeat constructor; discriminate.
Defined.

(** X18 on the window with a target of 9 MB, above the 8 MB heap. *)
Lemma never_over_target_witness :
  let s := app_session None (Some 9000000) in
  running s = false /\ target s = Some 9000000
  /\ timeOverTarget (fst (run s app_window)) = 0.
Proof.
  cbv zeta. split; [reflexivity|]. split; [reflexivity|].
  apply (never_over_target_counts_nothing (app_session None (Some 9000000))
           (window_start epoch 0) (three_ticks epoch)
           (window_stop (epoch + 200) 4000) 9000000 eq_refl eq_refl).
  repeat constructor.
Defined.

(** X19 on a started session: an interval tick keeps the first sample. *)
Lemma append_only_witness :
  let s := fst (run (app_session None None) [OpStart (window_start epoch 0)]) in
  let op := OpTick (reading (epoch + 50) 1000) in
  running s = true
  /\ exists mem_added cpu_added,
       memorySamples (fst (step s op)) = (memorySamples s ++ mem_added)%list
       /\ cpuSamples (fst (step s op)) = (cpuSamples s ++ cpu_added)%list.
Proof.
  cbv zeta.
  assert (Hr : running (fst (run (app_session None None)
                               [OpStart (window_start epoch 0)])) = true)
    by (vm_compute; reflexivity).
  split; [exact Hr|].
  apply (samples_are_append_only_within_window _
           (OpTick (reading (epoch + 50) 1000)) Hr eq_refl).
Defined.

(** X20 on a session that has been running for 120 ms. *)
Lemma status_witness :
  let ops := [OpStart (window_start epoch 0); OpTick (reading (epoch + 50) 1000)] in
  let s := fst (run (app_session None None) ops) in
  constructor (app_options None None) None = Ok (app_session None None)
  /\ running s = true
  /\ uptime (status (epoch + 120) s) = 120
  /\ samplesCollected (status (epoch + 120) s) = JS.length (memorySamples s).
Proof.
  cbv zeta. split; [reflexivity|]. split; [vm_compute; reflexivity|].
  split; [vm_compute; reflexivity|].
  apply (status_reports_uptime_and_samples (app_options None None) None
           (app_session None None)
           [OpStart (window_start epoch 0); OpTick (reading (epoch + 50) 1000)]
           (epoch + 120) eq_refl).
Defined.

(** X21 on the second sample of the window: 1 ms of CPU time in 50 ms,
    2 percent. *)
Lemma cpu_sample_witness :
  let s := fst (run (app_session None None) [OpStart (window_start epoch 0)]) in
  let env := reading (epoch + 50) 1000 in
  cpuSamples s = ([] ++ [first_cpu_sample])%list
  /\ map CPUSnapshot.percentage (cpuSamples (fst (_takeSample env s)))
     = [0%float; 2%float].
Proof.
  cbv zeta.
  assert (Hs : cpuSamples (fst (run (app_session None None)
                                  [OpStart (window_start epoch 0)]))
               = ([] ++ [first_cpu_sample])%list)
    by (vm_compute; reflexivity).
  split; [exact Hs|].
  rewrite (cpu_sample_is_relative_to_previous (reading (epoch + 50) 1000) _
             [] first_cpu_sample {| user := 1000; system := 0 |} Hs eq_refl eq_refl).
  vm_compute. reflexivity.
Defined.
